(** * GhostStack "brain": a shallow embedding of the indexing core

    The development follows the Python sources
    - [ghoststack/brain/embeddings.py]  (module [embeddings]),
    - [ghoststack/brain/index.py]       (module [index]),
    - [ghoststack/brain/ingestor.py]    (module [ingestor]),
    - [ghoststack/commands/review.py]   (module [review]).

    Python objects with mutable fields become records that are passed
    explicitly; a method [m(self, x)] becomes a function returning the
    result together with the updated object.  Dictionaries are stdpp finite
    maps, except where the insertion order is observable.  Everything the
    sources obtain from outside the repository (SHA-256, the
    sentence-transformers backend, ChromaDB's distance, CPython's parser) is
    collected in the record [Externals]. *)

From Stdlib Require Import QArith Ascii Sorted.
From stdpp Require Import gmap strings list fin_maps pretty.
Close Scope Q_scope.
Open Scope string_scope.
Open Scope nat_scope.

(** ** Python [str] primitives used by the sources *)

Module pystr.

(** [s.replace(old, new)] for one-character [old] and [new]. *)
Fixpoint replace (old new : Ascii.ascii) (s : string) : string :=
  match s with
  | EmptyString => EmptyString
  | String c s' =>
      String (if Ascii.eqb c old then new else c) (replace old new s')
  end.

(** [s[start:stop]] for non-negative indices; like Python, the slice is
    clamped to the end of [s]. *)
Definition slice (start stop : nat) (s : string) : string :=
  String.substring start (stop - start) s.

(** [s.split("\n")]: never empty, the last field may be empty. *)
Fixpoint split_lines (s : string) : list string :=
  match s with
  | EmptyString => [EmptyString]
  | String c s' =>
      if Ascii.eqb c "010"%char then EmptyString :: split_lines s'
      else match split_lines s' with
           | [] => [String c EmptyString]
           | l :: ls => String c l :: ls
           end
  end.

(** ["\n".join(ls)]. *)
Fixpoint join_lines (ls : list string) : string :=
  match ls with
  | [] => EmptyString
  | [l] => l
  | l :: ls' => l ++ String "010"%char (join_lines ls')
  end.

(** [ls[start:stop]] on a list, non-negative indices. *)
Definition list_slice {A} (start stop : nat) (ls : list A) : list A :=
  take (stop - start) (drop start ls).

(** Does [s] contain two adjacent colons?  (Used only in statements.) *)
Fixpoint has_double_colon (s : string) : bool :=
  match s with
  | String a ((String b _) as s') =>
      (Ascii.eqb a ":"%char && Ascii.eqb b ":"%char) || has_double_colon s'
  | _ => false
  end.

(** Does [s] contain a colon at all? *)
Fixpoint has_colon (s : string) : bool :=
  match s with
  | EmptyString => false
  | String a s' => Ascii.eqb a ":"%char || has_colon s'
  end.

End pystr.

(** ** Values shared by the modules *)

(** An embedding: Python's [list[float]].  Floating-point numbers are
    abstracted to rationals; no proof depends on their arithmetic. *)
Definition vector := list Q.

(** Values stored in ChromaDB metadata by this code: strings and integers. *)
Inductive mvalue :=
| MStr (s : string)
| MInt (n : nat).

#[global] Instance mvalue_eq_dec : EqDecision mvalue.
Proof. solve_decision. Defined.

(** A loaded [SentenceTransformer] object. *)
Inductive SentenceTransformer := LoadedModel (name : string).

(** What the sentence-transformers installation does when called.  [None]
    stands for a raised exception. *)
Record Backend := {
  (** [SentenceTransformer(model_name)] inside [_get_model] *)
  st_load : string -> option SentenceTransformer;
  (** [model.encode(text, convert_to_numpy=True).tolist()] *)
  st_encode : SentenceTransformer -> string -> option vector;
  (** [[e.tolist() for e in model.encode(texts, ...)]] *)
  st_encode_batch : SentenceTransformer -> list string -> option (list vector);
  (** [model.get_sentence_embedding_dimension()] *)
  st_dimension : SentenceTransformer -> option nat;
}.

(** Nodes yielded by [ast.walk]; only the fields read by the chunker. *)
Inductive node_kind := FunctionDef | AsyncFunctionDef | ClassDef | OtherNode.

Record ast_node := {
  kind : node_kind;
  name : string;
  lineno : nat;
  end_lineno : option nat;   (** [None]: the node has no [end_lineno] attribute *)
}.

(** [ast.parse(content)]: the nodes in [ast.walk] order, or [SyntaxError]. *)
Inductive parse_result :=
| Parsed (walk : list ast_node)
| SyntaxError.

(** Everything computed outside the repository. *)
Record Externals := {
  (** [hashlib.sha256(content.encode()).hexdigest()[:16]] *)
  sha256_hex16 : string -> string;
  (** [_simple_hash_embedding(text, dimension)]: SHA-256 and [struct]
      reinterpretation of digest bytes as floats *)
  _simple_hash_embedding : string -> nat -> vector;
  (** the sentence-transformers installation of the process *)
  st_backend : Backend;
  (** distance ChromaDB computes between a query and a stored embedding *)
  chroma_distance : vector -> vector -> Q;
  (** CPython's [ast.parse] followed by [ast.walk] *)
  ast_parse : string -> parse_result;
}.

(** ** embeddings.py *)

Module embeddings.

Definition DEFAULT_MODEL : string := "all-MiniLM-L6-v2".

Record EmbeddingModel := {
  model_name : string;
  _model : option SentenceTransformer;
  _fallback : bool;
  _dimension : nat;
}.

(** [EmbeddingModel.__init__] *)
Definition __init__ (model_name : string) (use_fallback : bool) : EmbeddingModel :=
  {| model_name := model_name; _model := None;
     _fallback := use_fallback; _dimension := 384 |}.

(** [self._fallback = True] *)
Definition enter_fallback (self : EmbeddingModel) : EmbeddingModel :=
  {| model_name := model_name self; _model := _model self;
     _fallback := true; _dimension := _dimension self |}.

(** [self._model = st] *)
Definition store_model (self : EmbeddingModel) (st : SentenceTransformer) : EmbeddingModel :=
  {| model_name := model_name self; _model := Some st;
     _fallback := _fallback self; _dimension := _dimension self |}.

Section WithBackend.
Variable hash_embedding : string -> nat -> vector.
Variable B : Backend.

(** [_get_model]: the loaded model, or [None] for the [RuntimeError] it
    raises.  (The module-global [_USE_FALLBACK] it sets is never read.) *)
Definition _get_model (model_name : string) : option SentenceTransformer :=
  st_load B model_name.

(** The [model] property; [None] stands for the [RuntimeError]. *)
Definition model (self : EmbeddingModel) : option SentenceTransformer * EmbeddingModel :=
  if _fallback self then (None, self)
  else match _model self with
       | Some st => (Some st, self)
       | None =>
           match _get_model (model_name self) with
           | Some st => (Some st, store_model self st)
           | None => (None, enter_fallback self)
           end
       end.

Definition embed (self : EmbeddingModel) (text : string) : vector * EmbeddingModel :=
  if _fallback self then (hash_embedding text (_dimension self), self)
  else
    let '(m, self) := model self in
    match (m ≫= fun st => st_encode B st text) with
    | Some embedding => (embedding, self)
    | None =>
        let self := enter_fallback self in
        (hash_embedding text (_dimension self), self)
    end.

Definition embed_batch (self : EmbeddingModel) (texts : list string)
  : list vector * EmbeddingModel :=
  match texts with
  | [] => ([], self)
  | _ =>
      if _fallback self
      then ((fun t => hash_embedding t (_dimension self)) <$> texts, self)
      else
        let '(m, self) := model self in
        match (m ≫= fun st => st_encode_batch B st texts) with
        | Some embeddings => (embeddings, self)
        | None =>
            let self := enter_fallback self in
            ((fun t => hash_embedding t (_dimension self)) <$> texts, self)
        end
  end.

(** The [dimension] property. *)
Definition dimension (self : EmbeddingModel) : nat * EmbeddingModel :=
  if _fallback self then (_dimension self, self)
  else
    let '(m, self) := model self in
    match (m ≫= st_dimension B) with
    | Some d => (d, self)
    | None => (_dimension self, self)
    end.

(** The [is_fallback] property. *)
Definition is_fallback (self : EmbeddingModel) : bool := _fallback self.

End WithBackend.

(** A client's call on an [EmbeddingModel], and what it gets back. *)
Inductive call :=
| CallEmbed (text : string)
| CallEmbedBatch (texts : list string)
| CallDimension
| CallIsFallback.

Inductive reply :=
| RVector (v : vector)
| RVectors (vs : list vector)
| RInt (n : nat)
| RBool (b : bool).

Definition do_call (hash_embedding : string -> nat -> vector) (B : Backend)
    (c : call) (self : EmbeddingModel) : reply * EmbeddingModel :=
  match c with
  | CallEmbed text => prod_map RVector id (embed hash_embedding B self text)
  | CallEmbedBatch texts => prod_map RVectors id (embed_batch hash_embedding B self texts)
  | CallDimension => prod_map RInt id (dimension B self)
  | CallIsFallback => (RBool (is_fallback self), self)
  end.

(** A sequence of calls; each call meets the backend as it behaves at that
    moment, so loading or inference may fail at one call and not at
    another. *)
Fixpoint run (hash_embedding : string -> nat -> vector)
    (cs : list (Backend * call)) (self : EmbeddingModel) : EmbeddingModel :=
  match cs with
  | [] => self
  | (B, c) :: cs' => run hash_embedding cs' (do_call hash_embedding B c self).2
  end.

End embeddings.

(** ** index.py *)

(** A stored document: the [(id, vector, content, metadata)] rows of the
    collection, keyed by id. *)
Record document := {
  doc_embedding : vector;
  doc_content : string;
  doc_metadata : gmap string mvalue;
}.

(** [sorted(xs, key=...)] on rational keys: a stable insertion sort. *)
Fixpoint insert_by {A} (key : A -> Q) (x : A) (l : list A) : list A :=
  match l with
  | [] => [x]
  | y :: l' => if Qle_bool (key x) (key y) then x :: l else y :: insert_by key x l'
  end.

Definition sorted_by {A} (key : A -> Q) (l : list A) : list A :=
  foldr (insert_by key) [] l.

(** The ChromaDB collection the index delegates to.  ChromaDB is not part of
    the repository; these definitions follow its documented behaviour and
    the store contract of the specification (section 4.2): a store keyed by
    document id, [upsert] inserts or replaces, [delete] ignores ids that are
    absent, [query] returns the [n_results] nearest documents that pass the
    [where] filter, nearest first. *)
Module chroma.

Definition get (c : gmap string document) (doc_id : string) : option document :=
  c !! doc_id.

Definition upsert (c : gmap string document) (doc_id : string)
    (embedding : vector) (content : string) (meta : gmap string mvalue)
  : gmap string document :=
  <[doc_id := {| doc_embedding := embedding; doc_content := content;
                 doc_metadata := meta |}]> c.

(** [None] would stand for a raised exception; deleting never raises. *)
Definition delete (c : gmap string document) (doc_id : string)
  : option (gmap string document) :=
  Some (base.delete doc_id c).

(** The filter [{"file_path": {"$nin": paths}}]: a document is left out
    when its [file_path] is one of [paths]. *)
Definition passes_nin (paths : list string) (d : document) : bool :=
  match doc_metadata d !! "file_path" with
  | Some (MStr p) => negb (bool_decide (p ∈ paths))
  | _ => true
  end.

Definition query (dist : vector -> vector -> Q) (c : gmap string document)
    (query_embedding : vector) (n_results : nat) (where_nin : option (list string))
  : list (string * document * Q) :=
  let rows := map_to_list c in
  let rows :=
    match where_nin with
    | Some paths => List.filter (fun r => passes_nin paths r.2) rows
    | None => rows
    end in
  let scored := (fun r => (r.1, r.2, dist query_embedding (doc_embedding r.2))) <$> rows in
  take n_results (sorted_by snd scored).

Definition count (c : gmap string document) : nat := size c.

End chroma.

Module index.
Import embeddings.

(** Ghost record of the costly operations performed on an index, oldest
    first: embedding computations and writes to the collection. *)
Inductive effect :=
| Embedded (text : string)
| Upserted (doc_id : string)
| Deleted (doc_id : string)
| Cleared.

Record CodeIndex := {
  _collection : gmap string document;
  _embedder : option EmbeddingModel;
  trace : list effect;
}.

(** [CodeIndex.__init__] on a collection that ChromaDB opened or created. *)
Definition __init__ (stored : gmap string document) : CodeIndex :=
  {| _collection := stored; _embedder := None; trace := [] |}.

(** One result dictionary of [search]. *)
Record SearchResult := {
  sr_id : string;
  sr_file_path : mvalue;
  sr_chunk_id : option mvalue;
  sr_content : string;
  sr_distance : Q;
  sr_metadata : gmap string mvalue;
}.

(** [doc_id] of [add_file], [get_related_files] and [remove_file]. *)
Definition file_doc_id (file_path : string) : string :=
  pystr.replace "." "_" (pystr.replace "/" "_" file_path).

(** [doc_id] of [add_chunk]. *)
Definition chunk_doc_id (file_path chunk_id : string) : string :=
  pystr.replace "." "_" (pystr.replace "/" "_" (file_path ++ "::" ++ chunk_id)).

(** [path not in changed_files] for a metadata value [path]; an integer
    never equals a string. *)
Definition path_in (path : mvalue) (changed_files : list string) : bool :=
  match path with
  | MStr p => bool_decide (p ∈ changed_files)
  | MInt _ => false
  end.

(** The dictionary [related] of [get_related_files]: insertion order is
    observable through [sorted], so it is an association list. *)
Fixpoint dict_get (d : list (mvalue * SearchResult)) (k : mvalue) : option SearchResult :=
  match d with
  | [] => None
  | (k', v) :: d' => if bool_decide (k' = k) then Some v else dict_get d' k
  end.

Fixpoint dict_set (d : list (mvalue * SearchResult)) (k : mvalue) (v : SearchResult)
  : list (mvalue * SearchResult) :=
  match d with
  | [] => [(k, v)]
  | (k', v') :: d' =>
      if bool_decide (k' = k) then (k, v) :: d' else (k', v') :: dict_set d' k v
  end.

Definition Qlt_bool (a b : Q) : bool := negb (Qle_bool b a).

(** A result whose path is none of the changed files (used in statements). *)
Definition outside (changed_files : list string) (r : SearchResult) : Prop :=
  path_in (sr_file_path r) changed_files = false.

Section WithExternals.
Variable E : Externals.

(** The [embedder] property. *)
Definition embedder (self : CodeIndex) : EmbeddingModel * CodeIndex :=
  match _embedder self with
  | Some m => (m, self)
  | None =>
      let m := embeddings.__init__ DEFAULT_MODEL true in
      (m, {| _collection := _collection self; _embedder := Some m;
             trace := trace self |})
  end.

(** [self.embedder.embed(text)]; the embedder object is shared, so its
    new state is the index's. *)
Definition embedder_embed (self : CodeIndex) (text : string) : vector * CodeIndex :=
  let '(m, self) := embedder self in
  let '(v, m) := embed (_simple_hash_embedding E) (st_backend E) m text in
  (v, {| _collection := _collection self; _embedder := Some m;
         trace := trace self ++ [Embedded text] |}).

(** [self._collection.upsert(...)] *)
Definition collection_upsert (self : CodeIndex) (doc_id : string)
    (embedding : vector) (content : string) (meta : gmap string mvalue) : CodeIndex :=
  {| _collection := chroma.upsert (_collection self) doc_id embedding content meta;
     _embedder := _embedder self;
     trace := trace self ++ [Upserted doc_id] |}.

Definition _hash_content (content : string) : string := sha256_hex16 E content.

(** [existing["ids"] and existing["metadatas"]] and the stored
    ["content_hash"] equals [content_hash]. *)
Definition unchanged (existing : option document) (content_hash : string) : bool :=
  match existing with
  | Some d => bool_decide (doc_metadata d !! "content_hash" = Some (MStr content_hash))
  | None => false
  end.

Definition add_file (self : CodeIndex) (file_path content : string)
    (metadata : option (gmap string mvalue)) : string * CodeIndex :=
  let doc_id := file_doc_id file_path in
  let content_hash := _hash_content content in
  let existing := chroma.get (_collection self) doc_id in
  if unchanged existing content_hash then (doc_id, self)
  else
    let '(embedding, self) := embedder_embed self content in
    let meta :=
      default ∅ metadata
      ∪ <["content_hash" := MStr content_hash]>
          (<["file_path" := MStr file_path]> ∅) in
    (doc_id, collection_upsert self doc_id embedding content meta).

Definition add_chunk (self : CodeIndex) (file_path chunk_id content : string)
    (metadata : option (gmap string mvalue)) : string * CodeIndex :=
  let doc_id := chunk_doc_id file_path chunk_id in
  let content_hash := _hash_content content in
  let existing := chroma.get (_collection self) doc_id in
  if unchanged existing content_hash then (doc_id, self)
  else
    let '(embedding, self) := embedder_embed self content in
    let meta :=
      default ∅ metadata
      ∪ <["content_hash" := MStr content_hash]>
          (<["chunk_id" := MStr chunk_id]>
             (<["file_path" := MStr file_path]> ∅)) in
    (doc_id, collection_upsert self doc_id embedding content meta).

(** One formatted row of [search]. *)
Definition format_result (r : string * document * Q) : SearchResult :=
  let '(doc_id, d, dist) := r in
  {| sr_id := doc_id;
     sr_file_path := default (MStr "") (doc_metadata d !! "file_path");
     sr_chunk_id := doc_metadata d !! "chunk_id";
     sr_content := doc_content d;
     sr_distance := dist;
     sr_metadata := doc_metadata d |}.

Definition search (self : CodeIndex) (query : string) (n_results : nat)
    (file_filter : option (list string)) : list SearchResult * CodeIndex :=
  let '(query_embedding, self) := embedder_embed self query in
  let where_filter :=
    match file_filter with
    | Some (_ :: _ as paths) => Some paths
    | _ => None
    end in
  let results :=
    chroma.query (chroma_distance E) (_collection self)
      query_embedding n_results where_filter in
  (format_result <$> results, self).

(** The body of [for match in matches]. *)
Definition merge_match (changed_files : list string)
    (related : list (mvalue * SearchResult)) (m : SearchResult)
  : list (mvalue * SearchResult) :=
  let path := sr_file_path m in
  if path_in path changed_files then related
  else
    match dict_get related path with
    | Some best =>
        if Qlt_bool (sr_distance m) (sr_distance best)
        then dict_set related path m else related
    | None => dict_set related path m
    end.

(** The body of [for file_path in changed_files]. *)
Definition related_step (changed_files : list string) (n_results : nat)
    (acc : list (mvalue * SearchResult) * CodeIndex) (file_path : string)
  : list (mvalue * SearchResult) * CodeIndex :=
  let '(related, self) := acc in
  let doc_id := file_doc_id file_path in
  match chroma.get (_collection self) doc_id with
  | Some d =>
      match doc_content d with
      | EmptyString => (related, self)
      | content =>
          let '(matches, self) :=
            search self (pystr.slice 0 2000 content)
              (n_results + length changed_files) (Some changed_files) in
          (foldl (merge_match changed_files) related matches, self)
      end
  | None => (related, self)
  end.

Definition get_related_files (self : CodeIndex) (changed_files : list string)
    (n_results : nat) : list SearchResult * CodeIndex :=
  let '(related, self) :=
    foldl (related_step changed_files n_results) ([], self) changed_files in
  (sorted_by sr_distance (snd <$> related), self).

Definition remove_file (self : CodeIndex) (file_path : string) : bool * CodeIndex :=
  let doc_id := file_doc_id file_path in
  match chroma.delete (_collection self) doc_id with
  | Some c =>
      (true, {| _collection := c; _embedder := _embedder self;
                trace := trace self ++ [Deleted doc_id] |})
  | None => (false, self)
  end.

Definition clear (self : CodeIndex) : CodeIndex :=
  {| _collection := ∅; _embedder := _embedder self;
     trace := trace self ++ [Cleared] |}.

Definition count (self : CodeIndex) : nat := chroma.count (_collection self).

End WithExternals.

(** A document as [add_chunk] writes it through the index's own embedder:
    stored under the id of its [file_path] and [chunk_id], with the hash of
    its content and the hash-derived embedding of dimension 384.  (Used in
    statements.) *)
Definition consistent (E : Externals) (doc_id : string) (d : document) : Prop :=
  exists file_path chunk_id : string,
    doc_id = chunk_doc_id file_path chunk_id
    /\ doc_metadata d !! "file_path" = Some (MStr file_path)
    /\ doc_metadata d !! "chunk_id" = Some (MStr chunk_id)
    /\ doc_metadata d !! "content_hash" = Some (MStr (_hash_content E (doc_content d)))
    /\ doc_embedding d = _simple_hash_embedding E (doc_content d) 384.

(** The embedder of an index, if it was created, is in fallback mode with
    dimension 384.  (Used in statements.) *)
Definition embedder_in_fallback (self : CodeIndex) : Prop :=
  forall m, _embedder self = Some m -> _fallback m = true /\ _dimension m = 384.

End index.

(** ** ingestor.py *)

Module ingestor.
Import index.

(** File extensions to index by language. *)
Definition SUPPORTED_EXTENSIONS : list (string * string) :=
  [ (".py", "python"); (".ts", "typescript"); (".tsx", "typescript");
    (".js", "javascript"); (".jsx", "javascript"); (".go", "go");
    (".rs", "rust"); (".java", "java"); (".rb", "ruby"); (".php", "php");
    (".c", "c"); (".cpp", "cpp"); (".h", "c"); (".hpp", "cpp");
    (".cs", "csharp"); (".swift", "swift"); (".kt", "kotlin");
    (".scala", "scala") ].

(** Chunk size for large files (in characters). *)
Definition CHUNK_SIZE : nat := 2000.
Definition CHUNK_OVERLAP : nat := 200.

(** [SUPPORTED_EXTENSIONS.get(ext, "unknown")] *)
Definition language_of (ext : string) : string :=
  default "unknown" ((list_to_map SUPPORTED_EXTENSIONS : gmap string string) !! ext).

(** A chunk dictionary [{"id": ..., "content": ..., "metadata": ...}]. *)
Record chunk := {
  c_id : string;
  c_content : string;
  c_metadata : gmap string mvalue;
}.

(** What [index_file] observes of a path on disk. *)
Record file := {
  (** [self._get_relative_path(path)] *)
  rel_path : string;
  (** [path.suffix.lower()] *)
  suffix : string;
  (** [self._hash_file(path)] *)
  file_hash : string;
  (** [path.read_text(encoding="utf-8", errors="replace")]; [None] when it
      raises [IOError] or [OSError] *)
  read_text : option string;
}.

Record FileIngestor := {
  index : CodeIndex;
  _hash_cache : gmap string string;
}.

(** [FileIngestor.__init__] with the hash cache as loaded from disk. *)
Definition __init__ (index : CodeIndex) (loaded : gmap string string) : FileIngestor :=
  {| index := index; _hash_cache := loaded |}.

(** The windows of [_chunk_by_lines]: its [while start < len(content)]
    loop.  [fuel] bounds the number of iterations; [None] means the bound
    was hit. *)
Fixpoint chunk_loop (fuel : nat) (content : string) (start chunk_num : nat)
  : option (list chunk) :=
  if start <? String.length content then
    match fuel with
    | 0 => None
    | S fuel =>
        let stop := start + CHUNK_SIZE in
        let chunk_content := pystr.slice start stop content in
        let c :=
          {| c_id := "chunk_" ++ pretty chunk_num;
             c_content := chunk_content;
             c_metadata :=
               <["type" := MStr "chunk"]>
                 (<["chunk_num" := MInt chunk_num]>
                    (<["start_char" := MInt start]>
                       (<["end_char" := MInt (stop `min` String.length content)]> ∅))) |} in
        cons c <$> chunk_loop fuel content (start + (CHUNK_SIZE - CHUNK_OVERLAP)) (chunk_num + 1)
    end
  else Some [].

Definition _chunk_by_lines (content file_path : string) : list chunk :=
  if String.length content <=? CHUNK_SIZE then
    [ {| c_id := "full"; c_content := content;
         c_metadata := <["type" := MStr "full_file"]> ∅ |} ]
  else
    default [] (chunk_loop (String.length content) content 0 0).

(** [isinstance(node, (ast.FunctionDef, ast.AsyncFunctionDef, ast.ClassDef))] *)
Definition is_definition (node : ast_node) : bool :=
  match kind node with
  | FunctionDef | AsyncFunctionDef | ClassDef => true
  | OtherNode => false
  end.

(** The chunk appended for one definition node.  ([lineno] counts from 1,
    so [lineno - 1] is never negative.) *)
Definition definition_chunk (lines : list string) (node : ast_node) : chunk :=
  let start_line := lineno node - 1 in
  let end_line := default (start_line + 1) (end_lineno node) in
  let chunk_content := pystr.join_lines (pystr.list_slice start_line end_line lines) in
  let chunk_type :=
    match kind node with ClassDef => "class" | _ => "function" end in
  {| c_id := name node;
     c_content := chunk_content;
     c_metadata :=
       <["type" := MStr chunk_type]>
         (<["name" := MStr (name node)]>
            (<["start_line" := MInt (start_line + 1)]>
               (<["end_line" := MInt end_line]> ∅))) |}.

Section WithExternals.
Variable E : Externals.

Definition _chunk_python (content file_path : string) : list chunk :=
  match ast_parse E content with
  | SyntaxError => _chunk_by_lines content file_path
  | Parsed walk =>
      let lines := pystr.split_lines content in
      let chunks := definition_chunk lines <$> List.filter is_definition walk in
      match chunks with
      | [] =>
          [ {| c_id := "module";
               c_content := pystr.slice 0 CHUNK_SIZE content;
               c_metadata := <["type" := MStr "module"]> ∅ |} ]
      | _ => chunks
      end
  end.

Definition _chunk_file (path : file) (content : string) : list chunk :=
  let rel_path := rel_path path in
  let ext := suffix path in
  let language := language_of ext in
  if bool_decide (language = "python") then _chunk_python content rel_path
  else _chunk_by_lines content rel_path.

(** The [if not force:] block of [index_file]; [None] is its
    [return 0]. *)
Definition check_changed (self : FileIngestor) (path : file) (force : bool)
  : option FileIngestor :=
  if force then Some self
  else
    let current_hash := file_hash path in
    if bool_decide (_hash_cache self !! rel_path path = Some current_hash) then None
    else Some {| index := index self;
                 _hash_cache := <[rel_path path := current_hash]> (_hash_cache self) |}.

(** The body of [for chunk in chunks]. *)
Definition index_chunk (rel_path language : string) (idx : CodeIndex) (c : chunk)
  : CodeIndex :=
  (add_chunk E idx rel_path (c_id c) (c_content c)
     (Some (c_metadata c ∪ <["language" := MStr language]> ∅))).2.

Definition index_file (self : FileIngestor) (path : file) (force : bool)
  : nat * FileIngestor :=
  let rel_path := rel_path path in
  match check_changed self path force with
  | None => (0, self)
  | Some self =>
      match read_text path with
      | None => (0, self)
      | Some content =>
          let ext := suffix path in
          let language := language_of ext in
          let chunks := _chunk_file path content in
          let idx := foldl (index_chunk rel_path language) (index self) chunks in
          (length chunks, {| index := idx; _hash_cache := _hash_cache self |})
      end
  end.

End WithExternals.

(** The ingestors whose vector store was filled by [index_file] alone:
    a new ingestor over an empty collection, with whatever hash cache was
    on disk, after any number of [index_file] calls. *)
Inductive populated (E : Externals) : FileIngestor -> Prop :=
| populated_new (loaded : gmap string string) :
    populated E (__init__ (index.__init__ ∅) loaded)
| populated_index_file (self : FileIngestor) (path : file) (force : bool) :
    populated E self -> populated E (index_file E self path force).2.

(** *** The rest of ingestor.py: scanning, full passes, deleted files *)

(** Directories to skip. *)
Definition SKIP_DIRS : list string :=
  [ ".git"; ".ghoststack"; "node_modules"; "__pycache__"; ".venv"; "venv";
    "env"; ".env"; "dist"; "build"; ".next"; ".nuxt"; "target"; "vendor";
    ".tox"; ".pytest_cache"; ".mypy_cache"; "coverage"; ".coverage" ].

(** Maximum file size to index (in bytes). *)
Definition MAX_FILE_SIZE : N := 500000.

(** What [scan_files] observes of one path yielded by
    [self.repo_path.rglob("*")]. *)
Record dir_entry := {
  (** [path.parts]: every component of the path, those of the repository
      root included *)
  parts : list string;
  (** [path.suffix.lower()] *)
  entry_suffix : string;
  (** [path.is_file()] *)
  is_file : bool;
  (** [path.stat().st_size]; [None] when [stat] raises [OSError] *)
  st_size : option N;
}.

Definition _should_index (path : dir_entry) : bool :=
  if bool_decide (entry_suffix path ∈ SUPPORTED_EXTENSIONS.*1) then
    match st_size path with
    | Some size => if (MAX_FILE_SIZE <? size)%N then false else true
    | None => false
    end
  else false.

(** [any(skip in path.parts for skip in SKIP_DIRS)] *)
Definition in_skipped_dir (path : dir_entry) : bool :=
  existsb (fun skip => bool_decide (skip ∈ parts path)) SKIP_DIRS.

(** [scan_files] over the listing [rglob] produces, in its order. *)
Definition scan_files (listing : list dir_entry) : list dir_entry :=
  List.filter
    (fun path => negb (in_skipped_dir path) && (is_file path && _should_index path))
    listing.

(** The dictionary [index_all] returns. *)
Record index_stats := {
  files_scanned : nat;
  files_indexed : nat;
  chunks_total : nat;
}.

(** The variables of the loop of [index_all]: the ingestor, the two
    counters, and the calls made to [progress_callback], oldest first. *)
Record pass := {
  p_self : FileIngestor;
  p_files_indexed : nat;
  p_chunks_total : nat;
  p_progress : list (string * nat * nat);
}.

(** What [index_all] leaves behind: its return value, the ingestor, the
    hash cache it wrote to [file_hashes.json], and the progress calls. *)
Record index_all_result := {
  ia_stats : index_stats;
  ia_self : FileIngestor;
  ia_saved : gmap string string;
  ia_progress : list (string * nat * nat);
}.

(** What [remove_deleted_files] leaves behind: its return value, the
    ingestor, and the hash cache it wrote, if it wrote one. *)
Record remove_deleted_result := {
  rd_removed : nat;
  rd_self : FileIngestor;
  rd_saved : option (gmap string string);
}.

(** Iteration [n] of the loop of [_chunk_by_lines], in closed form: the
    window that starts at [n * (CHUNK_SIZE - CHUNK_OVERLAP)].  (Used in
    statements.) *)
Definition window (content : string) (n : nat) : chunk :=
  let start := n * (CHUNK_SIZE - CHUNK_OVERLAP) in
  {| c_id := "chunk_" ++ pretty n;
     c_content := pystr.slice start (start + CHUNK_SIZE) content;
     c_metadata :=
       <["type" := MStr "chunk"]>
         (<["chunk_num" := MInt n]>
            (<["start_char" := MInt start]>
               (<["end_char" := MInt ((start + CHUNK_SIZE) `min` String.length content)]> ∅))) |}.

(** [a / b] rounded up.  (Used in statements.) *)
Definition ceil_div (a b : nat) : nat := (a + (b - 1)) / b.

Section Passes.
Variable E : Externals.

(** The body of [for i, path in enumerate(files)]; [progress_callback]
    tells whether a callback was passed. *)
Definition index_all_step (force progress_callback : bool) (total_files : nat)
    (acc : pass) (i : nat) (path : file) : pass :=
  let progress :=
    if progress_callback
    then (p_progress acc ++ [(rel_path path, i + 1, total_files)])%list
    else p_progress acc in
  let '(chunks, self) := index_file E (p_self acc) path force in
  if 0 <? chunks then
    {| p_self := self; p_files_indexed := p_files_indexed acc + 1;
       p_chunks_total := p_chunks_total acc + chunks; p_progress := progress |}
  else
    {| p_self := self; p_files_indexed := p_files_indexed acc;
       p_chunks_total := p_chunks_total acc; p_progress := progress |}.

Fixpoint index_all_loop (force progress_callback : bool) (total_files : nat)
    (acc : pass) (i : nat) (files : list file) : pass :=
  match files with
  | [] => acc
  | path :: files =>
      index_all_loop force progress_callback total_files
        (index_all_step force progress_callback total_files acc i path) (S i) files
  end.

(** [index_all] on the files that [scan_files] yielded. *)
Definition index_all (self : FileIngestor) (files : list file)
    (force progress_callback : bool) : index_all_result :=
  let total_files := length files in
  let done :=
    index_all_loop force progress_callback total_files
      {| p_self := self; p_files_indexed := 0; p_chunks_total := 0; p_progress := [] |}
      0 files in
  {| ia_stats := {| files_scanned := total_files;
                    files_indexed := p_files_indexed done;
                    chunks_total := p_chunks_total done |};
     ia_self := p_self done;
     ia_saved := _hash_cache (p_self done);
     ia_progress := p_progress done |}.

End Passes.

(** The body of the first loop of [remove_deleted_files]: the counter
    [removed], the list [files_to_remove] and the index. *)
Definition remove_deleted_step (exists_on_disk : string -> bool)
    (acc : nat * list string * CodeIndex) (rel_path : string)
  : nat * list string * CodeIndex :=
  let '(removed, files_to_remove, idx) := acc in
  if exists_on_disk rel_path then acc
  else (removed + 1, (files_to_remove ++ [rel_path])%list, (remove_file idx rel_path).2).

(** [remove_deleted_files]; [exists_on_disk rel_path] is
    [(self.repo_path / rel_path).exists()].  The keys of the cache are
    visited in the order of [map_to_list]. *)
Definition remove_deleted_files (self : FileIngestor) (exists_on_disk : string -> bool)
  : remove_deleted_result :=
  let '(removed, files_to_remove, idx) :=
    foldl (remove_deleted_step exists_on_disk) (0, [], index self)
      (map_to_list (_hash_cache self)).*1 in
  let cache := foldl (fun cache path => base.delete path cache) (_hash_cache self) files_to_remove in
  {| rd_removed := removed;
     rd_self := {| index := idx; _hash_cache := cache |};
     rd_saved := if 0 <? removed then Some cache else None |}.

End ingestor.

(** ** commands/review.py *)

Module review.

(** One entry of [_get_diff_files]: ["additions"] and ["deletions"] are
    absent from name-status entries. *)
Record changed_file := {
  path : string;
  additions : option nat;
  deletions : option nat;
}.

(** [risk_score] and [reasons] when [_calculate_risk_level] reaches
    [# Determine risk level]. *)
Definition score_and_reasons {A} (changed_files : list changed_file)
    (related_files : list A) : nat * list string :=
  let reasons : list string := [] in
  let risk_score := 0 in
  let total_changes :=
    sum_list ((fun f => default 0 (additions f) + default 0 (deletions f))
                <$> changed_files) in
  let '(risk_score, reasons) :=
    if 500 <? total_changes then
      (risk_score + 2,
       (reasons ++ ["Large changeset (" +:+ pretty total_changes +:+ " lines)"])%list)
    else if 100 <? total_changes then (risk_score + 1, reasons)
    else (risk_score, reasons) in
  let '(risk_score, reasons) :=
    if 10 <? length changed_files then
      (risk_score + 2,
       (reasons ++ ["Many files changed (" +:+ pretty (length changed_files) +:+ ")"])%list)
    else if 5 <? length changed_files then (risk_score + 1, reasons)
    else (risk_score, reasons) in
  let '(risk_score, reasons) :=
    if 3 <? length related_files then
      (risk_score + 2,
       (reasons ++ ["Found " +:+ pretty (length related_files)
                    +:+ " potentially impacted files not in diff"])%list)
    else if 0 <? length related_files then
      (risk_score + 1,
       (reasons ++ ["Found " +:+ pretty (length related_files) +:+ " related file(s)"])%list)
    else (risk_score, reasons) in
  (risk_score, reasons).

Definition _calculate_risk_level {A} (changed_files : list changed_file)
    (related_files : list A) : string * list string :=
  let '(risk_score, reasons) := score_and_reasons changed_files related_files in
  if 4 <=? risk_score then ("High", reasons)
  else if 2 <=? risk_score then ("Medium", reasons)
  else ("Low", reasons).

(** The number of the three conditions (changed lines, changed files,
    related files) that add points to the score. *)
Definition contributing_conditions {A} (changed_files : list changed_file)
    (related_files : list A) : nat :=
  let total_changes :=
    sum_list ((fun f => default 0 (additions f) + default 0 (deletions f))
                <$> changed_files) in
  (if 100 <? total_changes then 1 else 0)
  + (if 5 <? length changed_files then 1 else 0)
  + (if 0 <? length related_files then 1 else 0).

End review.

(** ** core/config.py: the branch stack read by the review command *)

Module config.

Record StackItem := {
  name : string;
  parent : option string;
  created_at : option string;
}.

Record StackState := {
  items : list StackItem;
  base_branch : string;
}.

(** [add_item]; [now] is [datetime.now(timezone.utc).isoformat()]. *)
Definition add_item (self : StackState) (name : string) (parent : option string)
    (now : string) : StackItem * StackState :=
  let item := {| name := name; parent := parent; created_at := Some now |} in
  (item, {| items := items self ++ [item]; base_branch := base_branch self |}).



Fixpoint find_item (items : list StackItem) (n : string) : option StackItem :=
  match items with
  | [] => None
  | item :: items' => if bool_decide (name item = n) then Some item else find_item items' n
  end.

Definition get_item (self : StackState) (n : string) : option StackItem :=
  find_item (items self) n.

Definition get_children (self : StackState) (n : string) : list StackItem :=
  List.filter (fun item => bool_decide (parent item = Some n)) (items self).

End config.

(** ** Concrete inputs

    A process in which sentence-transformers cannot be loaded, with stand-ins
    for the hash and distance functions, and the files the examples index. *)

Module fixtures.
Import embeddings index ingestor review.

Definition no_backend : Backend :=
  {| st_load := fun _ => None;
     st_encode := fun _ _ => None;
     st_encode_batch := fun _ _ => None;
     st_dimension := fun _ => None |}.

(** A backend in which everything succeeds. *)
Definition working_backend : Backend :=
  {| st_load := fun name => Some (LoadedModel name);
     st_encode := fun _ _ => Some [1%Q];
     st_encode_batch := fun _ texts => Some ((fun _ => [1%Q]) <$> texts);
     st_dimension := fun _ => Some 384 |}.

(** A node that is no definition, as [ast.walk] yields for [Module],
    [Assign], [Name], [Store] and [Constant]. *)
Definition other_node : ast_node :=
  {| kind := OtherNode; name := ""; lineno := 0; end_lineno := None |}.

(** CPython on the one Python text used below: ["x = 1"] parses to a
    module with a single assignment. *)
Definition parse_fixture (content : string) : parse_result :=
  if bool_decide (content = "x = 1")
  then Parsed [other_node; other_node; other_node; other_node; other_node]
  else SyntaxError.

Definition world : Externals :=
  {| sha256_hex16 := fun s => s;
     _simple_hash_embedding := fun _ _ => [];
     st_backend := no_backend;
     chroma_distance := fun _ _ => 0%Q;
     ast_parse := parse_fixture |}.

(** [n] copies of a character. *)
Fixpoint repeat_char (n : nat) (c : Ascii.ascii) : string :=
  match n with
  | 0 => EmptyString
  | S n => String c (repeat_char n c)
  end.

(** A JavaScript file [a.js] holding the text [x]. *)
Definition a_js : file :=
  {| rel_path := "a.js"; suffix := ".js"; file_hash := "h1"; read_text := Some "x" |}.

(** Two search results for [b.py], at distances 1/2 and 1/4. *)
Definition match_b_far : SearchResult :=
  {| sr_id := "b_py::module"; sr_file_path := MStr "b.py";
     sr_chunk_id := Some (MStr "module"); sr_content := "x = 1";
     sr_distance := (1 # 2)%Q; sr_metadata := ∅ |}.

Definition match_b_near : SearchResult :=
  {| sr_id := "b_py::f"; sr_file_path := MStr "b.py";
     sr_chunk_id := Some (MStr "f"); sr_content := "def f(): pass";
     sr_distance := (1 # 4)%Q; sr_metadata := ∅ |}.

(** A Python file [b.py] holding the text [x = 1]. *)
Definition b_py : file :=
  {| rel_path := "b.py"; suffix := ".py"; file_hash := "h3"; read_text := Some "x = 1" |}.

(** [a.js] after an edit: new text, new hash. *)
Definition a_js_edited : file :=
  {| rel_path := "a.js"; suffix := ".js"; file_hash := "h2"; read_text := Some "y" |}.

(** A fresh index and ingestor, nothing cached. *)
Definition fresh : FileIngestor := ingestor.__init__ (index.__init__ ∅) ∅.

(** The ingestor after [index_file(a.js)]. *)
Definition indexed_a : FileIngestor := (index_file world fresh a_js false).2.

(** Six changed files with 30 added and 10 deleted lines each. *)
Definition six_moderate_files : list changed_file :=
  (fun n => {| path := "f" +:+ pretty n +:+ ".py";
               additions := Some 30; deletions := Some 10 |}) <$> seq 0 6.

(** Twelve changed files with 40 added and 10 deleted lines each. *)
Definition twelve_large_files : list changed_file :=
  (fun n => {| path := "g" +:+ pretty n +:+ ".py";
               additions := Some 40; deletions := Some 10 |}) <$> seq 0 12.

(** Four related files. *)
Definition four_related : list SearchResult :=
  [match_b_far; match_b_near; match_b_far; match_b_near].

(** The path [/home/dev/build/repo/main.py], as [rglob] lists it for a
    repository at [/home/dev/build/repo]. *)
Definition main_py_under_build : dir_entry :=
  {| parts := ["/"; "home"; "dev"; "build"; "repo"; "main.py"];
     entry_suffix := ".py"; is_file := true; st_size := Some 120%N |}.

(** A Python text that defines [f] twice, and the walk CPython yields for
    it: the module, the two definitions, and nodes of their bodies. *)
Definition two_defs : string :=
  "def f(): return 1" +:+ String "010"%char "def f(): return 2".

Definition first_def : ast_node :=
  {| kind := FunctionDef; name := "f"; lineno := 1; end_lineno := Some 1 |}.

Definition second_def : ast_node :=
  {| kind := FunctionDef; name := "f"; lineno := 2; end_lineno := Some 2 |}.

Definition world_two_defs : Externals :=
  {| sha256_hex16 := fun s => s;
     _simple_hash_embedding := fun _ _ => [];
     st_backend := no_backend;
     chroma_distance := fun _ _ => 0%Q;
     ast_parse := fun content =>
       if bool_decide (content = two_defs)
       then Parsed [other_node; first_def; second_def; other_node; other_node]
       else SyntaxError |}.

(** The file [c.py] holding that text. *)
Definition c_py : file :=
  {| rel_path := "c.py"; suffix := ".py"; file_hash := "h4"; read_text := Some two_defs |}.

(** A model created with the default [use_fallback=False]. *)
Definition default_model : EmbeddingModel :=
  embeddings.__init__ DEFAULT_MODEL false.

End fixtures.

(** * Properties *)

(** ** Strings *)

Section StringFacts.
Import pystr.

Lemma append_empty (t : string) : "" ++ t = t.
Proof. reflexivity. Qed.

Lemma append_String a (s t : string) : String a s ++ t = String a (s ++ t).
Proof. reflexivity. Qed.

Lemma has_double_colon_String a b s :
  has_double_colon (String a (String b s))
  = (Ascii.eqb a ":" && Ascii.eqb b ":") || has_double_colon (String b s).
Proof. reflexivity. Qed.

Lemma replace_app old new s t :
  replace old new (s ++ t) = replace old new s ++ replace old new t.
Proof.
  induction s as [|c s IH]; [done |].
  rewrite append_String. simpl. by rewrite IH.
Qed.

Lemma has_colon_app_r s t : has_colon t = true -> has_colon (s ++ t) = true.
Proof.
  intros Ht. induction s as [|c s IH]; [done |].
  rewrite append_String. simpl. rewrite IH. apply orb_true_r.
Qed.

(** A replacement that neither removes nor introduces colons. *)
Lemma replaced_is_colon old new c :
  old <> ":"%char -> new <> ":"%char ->
  Ascii.eqb (if Ascii.eqb c old then new else c) ":" = Ascii.eqb c ":".
Proof.
  intros Ho Hn. destruct (Ascii.eqb_spec c old) as [->|]; [|done].
  apply Ascii.eqb_neq in Ho, Hn. by rewrite Ho, Hn.
Qed.

Lemma has_colon_replace old new s :
  old <> ":"%char -> new <> ":"%char ->
  has_colon (replace old new s) = has_colon s.
Proof.
  intros Ho Hn. induction s as [|c s IH]; simpl; [done |].
  by rewrite IH, replaced_is_colon.
Qed.

Lemma has_double_colon_replace old new s :
  old <> ":"%char -> new <> ":"%char ->
  has_double_colon (replace old new s) = has_double_colon s.
Proof.
  intros Ho Hn. induction s as [|a s IH]; [done |].
  destruct s as [|b s]; [done |].
  rewrite has_double_colon_String, <- IH.
  change (replace old new (String a (String b s)))
    with (String (if Ascii.eqb a old then new else a)
            (String (if Ascii.eqb b old then new else b) (replace old new s))).
  rewrite has_double_colon_String, !replaced_is_colon by done.
  done.
Qed.

Lemma has_double_colon_app_sep s t : has_double_colon (s ++ "::" ++ t) = true.
Proof.
  induction s as [|a s IH]; [done |].
  rewrite append_String.
  destruct (s ++ "::" ++ t) as [|b u] eqn:Hu; [by destruct s |].
  rewrite has_double_colon_String, IH. apply orb_true_r.
Qed.

(** The text after the last colon determines where ["::"] splits. *)
Lemma split_at_separator p1 c1 p2 c2 :
  has_colon c1 = false -> has_colon c2 = false ->
  p1 ++ "::" ++ c1 = p2 ++ "::" ++ c2 -> p1 = p2 /\ c1 = c2.
Proof.
  intros H1 H2. revert p2.
  assert (Hsep : forall p c, has_colon (p ++ String ":" (String ":" c)) = true).
  { intros p c. by apply has_colon_app_r. }
  induction p1 as [|a p1 IH]; intros [|b p2] Heq;
    rewrite ?append_String, ?append_empty in Heq.
  - by simplify_eq.
  - exfalso. injection Heq as _ Heq.
    destruct p2 as [|b' p2]; rewrite ?append_String, ?append_empty in Heq.
    + injection Heq as Heq. rewrite Heq in H1. simpl in H1. done.
    + injection Heq as _ Heq. by rewrite Heq, Hsep in H1.
  - exfalso. injection Heq as _ Heq.
    destruct p1 as [|a' p1]; rewrite ?append_String, ?append_empty in Heq.
    + injection Heq as Heq. rewrite <- Heq in H2. simpl in H2. done.
    + injection Heq as _ Heq. by rewrite <- Heq, Hsep in H2.
  - injection Heq as -> Heq. destruct (IH _ Heq) as [-> ->]. done.
Qed.

End StringFacts.

(** ** Document ids *)

Section DocIds.
Import pystr index.

Lemma chunk_doc_id_split file_path chunk_id :
  chunk_doc_id file_path chunk_id
  = file_doc_id file_path ++ "::" ++ file_doc_id chunk_id.
Proof. unfold chunk_doc_id, file_doc_id. by rewrite !replace_app. Qed.

Lemma file_doc_id_has_colon s : has_colon (file_doc_id s) = has_colon s.
Proof. unfold file_doc_id. by rewrite !has_colon_replace. Qed.

Lemma file_doc_id_has_double_colon s :
  has_double_colon (file_doc_id s) = has_double_colon s.
Proof. unfold file_doc_id. by rewrite !has_double_colon_replace. Qed.

Lemma chunk_doc_id_has_double_colon file_path chunk_id :
  has_double_colon (chunk_doc_id file_path chunk_id) = true.
Proof. rewrite chunk_doc_id_split. apply has_double_colon_app_sep. Qed.

End DocIds.

(** ** embeddings.py: the fallback flag *)

Section Fallback.
Import embeddings.
Variable hash_embedding : string -> nat -> vector.

Lemma model_keeps_fallback B self :
  _fallback self = true -> _fallback (model B self).2 = true.
Proof. intros H. unfold model. by rewrite H. Qed.

(** No call clears the flag. *)
Lemma do_call_keeps_fallback B c self :
  _fallback self = true -> _fallback (do_call hash_embedding B c self).2 = true.
Proof.
  intros H. destruct c as [text|texts| |]; simpl.
  - unfold embed. by rewrite H.
  - unfold embed_batch. destruct texts; [done |]. by rewrite H.
  - unfold dimension. by rewrite H.
  - done.
Qed.

Lemma run_app cs1 cs2 self :
  run hash_embedding (cs1 ++ cs2) self
  = run hash_embedding cs2 (run hash_embedding cs1 self).
Proof.
  revert self. induction cs1 as [|[B c] cs1 IH]; intros self; [done |].
  simpl. apply IH.
Qed.

Lemma run_keeps_fallback cs self :
  _fallback self = true -> _fallback (run hash_embedding cs self) = true.
Proof.
  revert self. induction cs as [|[B c] cs IH]; intros self H; [done |].
  simpl. apply IH. by apply do_call_keeps_fallback.
Qed.

End Fallback.

(** C9: for every sequence of calls to [embed], [embed_batch], [dimension]
    and [is_fallback] on an [EmbeddingModel], whatever the backend does at
    each call: if [is_fallback] is true after some prefix [before] of the
    sequence, it is true after every continuation [before ++ after].  The
    flag is never cleared. *)
Theorem fallback_is_irreversible
    (hash_embedding : string -> nat -> vector)
    (before after : list (Backend * embeddings.call))
    (self : embeddings.EmbeddingModel) :
  embeddings.is_fallback (embeddings.run hash_embedding before self) = true ->
  embeddings.is_fallback (embeddings.run hash_embedding (before ++ after) self) = true.
Proof.
  intros H. rewrite run_app. unfold embeddings.is_fallback in *.
  by apply run_keeps_fallback.
Qed.

(** C9 at a concrete run: a default model meets a failing backend at its
    first [embed]; the backend works from then on, and the model stays in
    fallback mode. *)
Lemma fallback_is_irreversible_witness :
  embeddings.is_fallback fixtures.default_model = false
  /\ embeddings.is_fallback
       (embeddings.run (fun _ _ => [])
          ([(fixtures.no_backend, embeddings.CallEmbed "x")]
           ++ [(fixtures.working_backend, embeddings.CallEmbed "x");
               (fixtures.working_backend, embeddings.CallDimension);
               (fixtures.working_backend, embeddings.CallEmbedBatch ["a"; "b"]);
               (fixtures.working_backend, embeddings.CallIsFallback)])
          fixtures.default_model) = true.
Proof.
  split; [reflexivity |].
  apply (fallback_is_irreversible (fun _ _ => [])
           [(fixtures.no_backend, embeddings.CallEmbed "x")]).
  reflexivity.
Defined.

(** ** index.py: document ids *)

(** C8 (amended): the document id is a function of [(file_path, chunk_id)],
    and it identifies the pair only up to the replacement of ['/'] and ['.']
    by ['_']: for chunk ids without a colon, two pairs receive the same id
    exactly when their paths agree after the replacement and their chunk ids
    agree after the replacement. *)
Theorem doc_id_deterministic_unique_up_to_replacement :
  (forall p1 c1 p2 c2 : string,
      p1 = p2 -> c1 = c2 -> index.chunk_doc_id p1 c1 = index.chunk_doc_id p2 c2)
  /\ (forall p1 c1 p2 c2 : string,
         pystr.has_colon c1 = false -> pystr.has_colon c2 = false ->
         (index.chunk_doc_id p1 c1 = index.chunk_doc_id p2 c2
          <-> index.file_doc_id p1 = index.file_doc_id p2
              /\ index.file_doc_id c1 = index.file_doc_id c2)).
Proof.
  split.
  - by intros p1 c1 p2 c2 -> ->.
  - intros p1 c1 p2 c2 H1 H2. rewrite !chunk_doc_id_split. split.
    + apply split_at_separator; by rewrite file_doc_id_has_colon.
    + by intros [-> ->].
Qed.

(** C8 (amended) at concrete pairs: the same pair gives the same id, and
    paths that differ after the replacement give different ids. *)
Lemma doc_id_unique_witness :
  index.chunk_doc_id "src/a.py" "main" = index.chunk_doc_id "src/a.py" "main"
  /\ (index.chunk_doc_id "src/a.py" "main" = index.chunk_doc_id "src/b.py" "main"
      <-> index.file_doc_id "src/a.py" = index.file_doc_id "src/b.py"
          /\ index.file_doc_id "main" = index.file_doc_id "main").
Proof.
  split.
  - apply (proj1 doc_id_deterministic_unique_up_to_replacement); reflexivity.
  - apply (proj2 doc_id_deterministic_unique_up_to_replacement); reflexivity.
Defined.

(** C8 as stated fails: two distinct pairs with the same document id. *)
Lemma doc_id_collision :
  ("src/a/b.py", "full") <> ("src/a_b.py", "full")
  /\ index.chunk_doc_id "src/a/b.py" "full" = index.chunk_doc_id "src/a_b.py" "full".
Proof. split; [discriminate | reflexivity]. Qed.

(** ** ingestor.py: chunking *)

Section Chunking.
Import pystr ingestor.

(** Past the end of the text the requested length does not matter. *)
Lemma substring_clamp (s : string) n m m' :
  String.length s <= n + m -> String.length s <= n + m' ->
  String.substring n m s = String.substring n m' s.
Proof.
  revert n m m'. induction s as [|c s IH]; intros n m m' Hm Hm'.
  - by destruct n, m, m'.
  - simpl in Hm, Hm'. destruct n as [|n].
    + destruct m as [|m]; [lia |]. destruct m' as [|m']; [lia |].
      simpl. f_equal. apply IH; lia.
    + simpl. apply IH; lia.
Qed.

(** A slice that runs past the end of the text stops at the end. *)
Lemma slice_clamp (s : string) start stop :
  start <= String.length s <= stop ->
  slice start stop s = slice start (String.length s) s.
Proof. intros [Hlo Hhi]. unfold slice. apply substring_clamp; lia. Qed.

Lemma chunk_loop_S fuel content start chunk_num :
  chunk_loop (S fuel) content start chunk_num
  = if start <? String.length content then
      cons {| c_id := "chunk_" ++ pretty chunk_num;
              c_content := slice start (start + CHUNK_SIZE) content;
              c_metadata :=
                <["type" := MStr "chunk"]>
                  (<["chunk_num" := MInt chunk_num]>
                     (<["start_char" := MInt start]>
                        (<["end_char" :=
                             MInt ((start + CHUNK_SIZE) `min` String.length content)]> ∅))) |}
        <$> chunk_loop fuel content (start + (CHUNK_SIZE - CHUNK_OVERLAP)) (chunk_num + 1)
    else Some [].
Proof. reflexivity. Qed.

Lemma chunk_loop_done fuel content start chunk_num :
  String.length content <= start -> chunk_loop fuel content start chunk_num = Some [].
Proof. intros H. apply Nat.ltb_ge in H. destruct fuel; simpl; by rewrite H. Qed.

(** The loop of [_chunk_by_lines] ends: the fuel [len(content)] given to
    it is never used up. *)
Lemma chunk_loop_terminates fuel content start chunk_num :
  String.length content - start <= fuel ->
  is_Some (chunk_loop fuel content start chunk_num).
Proof.
  revert start chunk_num.
  induction fuel as [|fuel IH]; intros start chunk_num Hfuel.
  - rewrite chunk_loop_done by lia. done.
  - rewrite chunk_loop_S. case_match; [|done].
    destruct (IH (start + (CHUNK_SIZE - CHUNK_OVERLAP)) (chunk_num + 1)) as [cs ->].
    + unfold CHUNK_SIZE, CHUNK_OVERLAP. lia.
    + done.
Qed.

Lemma chunk_by_lines_total content :
  is_Some (chunk_loop (String.length content) content 0 0).
Proof. apply chunk_loop_terminates. lia. Qed.

End Chunking.

(** C2 (amended): windowed chunking of a 2100-character text gives exactly
    two chunks: [chunk_0] holds the characters at offsets [0, 2000), and
    [chunk_1] starts at 1800, its window [1800, 3800) clamped to the end of
    the text at 2100.  The next window would start at 3600, beyond the end
    of the text, so the loop stops before it. *)
Theorem windows_of_2100_characters (content file_path : string) :
  String.length content = 2100 ->
  ingestor._chunk_by_lines content file_path
  = [ {| ingestor.c_id := "chunk_0";
         ingestor.c_content := pystr.slice 0 2000 content;
         ingestor.c_metadata :=
           <["type" := MStr "chunk"]>
             (<["chunk_num" := MInt 0]>
                (<["start_char" := MInt 0]> (<["end_char" := MInt 2000]> ∅))) |};
      {| ingestor.c_id := "chunk_1";
         ingestor.c_content := pystr.slice 1800 2100 content;
         ingestor.c_metadata :=
           <["type" := MStr "chunk"]>
             (<["chunk_num" := MInt 1]>
                (<["start_char" := MInt 1800]> (<["end_char" := MInt 2100]> ∅))) |} ].
Proof.
  intros Hlen. unfold ingestor._chunk_by_lines.
  assert (Hbig : (String.length content <=? ingestor.CHUNK_SIZE) = false).
  { apply Nat.leb_gt. rewrite Hlen. unfold ingestor.CHUNK_SIZE. lia. }
  rewrite Hbig.
  assert (Hfuel : String.length content = S (S (String.length content - 2))) by lia.
  rewrite Hfuel at 1. rewrite !chunk_loop_S.
  assert (H0 : (0 <? String.length content) = true) by (apply Nat.ltb_lt; lia).
  assert (H1 : (0 + (ingestor.CHUNK_SIZE - ingestor.CHUNK_OVERLAP)
                <? String.length content) = true).
  { apply Nat.ltb_lt. unfold ingestor.CHUNK_SIZE, ingestor.CHUNK_OVERLAP. lia. }
  rewrite H0, H1, chunk_loop_done
    by (unfold ingestor.CHUNK_SIZE, ingestor.CHUNK_OVERLAP; lia).
  assert (E0 : (0 + ingestor.CHUNK_SIZE) `min` String.length content = 2000)
    by (unfold ingestor.CHUNK_SIZE; lia).
  assert (E1 : (0 + (ingestor.CHUNK_SIZE - ingestor.CHUNK_OVERLAP) + ingestor.CHUNK_SIZE)
               `min` String.length content = 2100)
    by (unfold ingestor.CHUNK_SIZE, ingestor.CHUNK_OVERLAP; lia).
  assert (E2 : 0 + (ingestor.CHUNK_SIZE - ingestor.CHUNK_OVERLAP) = 1800)
    by (unfold ingestor.CHUNK_SIZE, ingestor.CHUNK_OVERLAP; lia).
  assert (E3 : 0 + ingestor.CHUNK_SIZE = 2000) by (unfold ingestor.CHUNK_SIZE; lia).
  rewrite E0, E1, E2, E3.
  assert (E4 : 1800 + ingestor.CHUNK_SIZE = 3800) by (unfold ingestor.CHUNK_SIZE; lia).
  rewrite E4, (slice_clamp content 1800 3800) by lia.
  rewrite Hlen. reflexivity.
Qed.

(** C2 (amended) on the text of 2100 letters [a]. *)
Lemma windows_of_2100_characters_witness :
  let content := fixtures.repeat_char 2100 "a" in
  ingestor._chunk_by_lines content "big.js"
  = [ {| ingestor.c_id := "chunk_0";
         ingestor.c_content := pystr.slice 0 2000 content;
         ingestor.c_metadata :=
           <["type" := MStr "chunk"]>
             (<["chunk_num" := MInt 0]>
                (<["start_char" := MInt 0]> (<["end_char" := MInt 2000]> ∅))) |};
      {| ingestor.c_id := "chunk_1";
         ingestor.c_content := pystr.slice 1800 2100 content;
         ingestor.c_metadata :=
           <["type" := MStr "chunk"]>
             (<["chunk_num" := MInt 1]>
                (<["start_char" := MInt 1800]> (<["end_char" := MInt 2100]> ∅))) |} ].
Proof.
  apply (windows_of_2100_characters (fixtures.repeat_char 2100 "a") "big.js").
  vm_compute. reflexivity.
Defined.

(** C2 as stated fails: a 2100-character text gives two chunks, not three,
    and the second one ends at 2100. *)
Lemma windows_of_2100_characters_are_two :
  String.length (fixtures.repeat_char 2100 "a") = 2100
  /\ length (ingestor._chunk_by_lines (fixtures.repeat_char 2100 "a") "big.js") = 2
  /\ length (ingestor._chunk_by_lines (fixtures.repeat_char 2100 "a") "big.js") <> 3
  /\ (ingestor.c_metadata <$>
        last (ingestor._chunk_by_lines (fixtures.repeat_char 2100 "a") "big.js"))
     = Some (<["type" := MStr "chunk"]>
               (<["chunk_num" := MInt 1]>
                  (<["start_char" := MInt 1800]> (<["end_char" := MInt 2100]> ∅)))).
Proof.
  split; [vm_compute; reflexivity |].
  split; [vm_compute; reflexivity |].
  split; [vm_compute; discriminate |].
  vm_compute; reflexivity.
Qed.

(** C5 (amended): when a Python text parses and the walk over its tree meets
    no function, method or class definition, [_chunk_python] does not fall
    back to windowed chunking: it returns the single chunk [module] of type
    [module] holding the first [CHUNK_SIZE] characters of the text. *)
Theorem python_without_definitions_is_one_module_chunk
    (E : Externals) (content file_path : string) (walk : list ast_node) :
  ast_parse E content = Parsed walk ->
  Forall (fun node => ingestor.is_definition node = false) walk ->
  ingestor._chunk_python E content file_path
  = [ {| ingestor.c_id := "module";
         ingestor.c_content := pystr.slice 0 ingestor.CHUNK_SIZE content;
         ingestor.c_metadata := <["type" := MStr "module"]> ∅ |} ].
Proof.
  intros Hparse Hnone. unfold ingestor._chunk_python. rewrite Hparse.
  assert (List.filter ingestor.is_definition walk = []) as ->; [|done].
  clear Hparse. induction Hnone as [|node walk Hnode _ IH]; [done |].
  simpl. rewrite Hnode. exact IH.
Qed.

(** C5 (amended) on the text [x = 1]. *)
Lemma python_without_definitions_witness :
  ingestor._chunk_python fixtures.world "x = 1" "a.py"
  = [ {| ingestor.c_id := "module";
         ingestor.c_content := pystr.slice 0 ingestor.CHUNK_SIZE "x = 1";
         ingestor.c_metadata := <["type" := MStr "module"]> ∅ |} ].
Proof.
  apply (python_without_definitions_is_one_module_chunk fixtures.world "x = 1" "a.py"
           [fixtures.other_node; fixtures.other_node; fixtures.other_node;
            fixtures.other_node; fixtures.other_node]).
  - reflexivity.
  - repeat constructor.
Defined.

(** C5 as stated fails: [x = 1] parses and defines nothing, and its
    structural chunking is not what windowed chunking returns. *)
Lemma python_without_definitions_not_windowed :
  ast_parse fixtures.world "x = 1" = Parsed (replicate 5 fixtures.other_node)
  /\ List.filter ingestor.is_definition (replicate 5 fixtures.other_node) = []
  /\ ingestor.c_id <$> ingestor._chunk_python fixtures.world "x = 1" "a.py" = ["module"]
  /\ ingestor.c_id <$> ingestor._chunk_by_lines "x = 1" "a.py" = ["full"]
  /\ ingestor._chunk_python fixtures.world "x = 1" "a.py"
     <> ingestor._chunk_by_lines "x = 1" "a.py".
Proof.
  repeat split; try reflexivity.
  intros H. apply (f_equal (fmap ingestor.c_id)) in H. vm_compute in H. discriminate.
Qed.

(** ** ingestor.py: the hash cache *)

Section HashCache.
Import ingestor.
Variable E : Externals.

(** A forced pass never writes the cache. *)
Lemma index_file_forced_keeps_cache self path :
  _hash_cache (index_file E self path true).2 = _hash_cache self.
Proof. unfold index_file, check_changed. destruct (read_text path); reflexivity. Qed.

(** A pass that is not forced records the hash of a new or changed file. *)
Lemma index_file_changed_updates_cache self path :
  _hash_cache self !! rel_path path <> Some (file_hash path) ->
  _hash_cache (index_file E self path false).2 !! rel_path path
  = Some (file_hash path).
Proof.
  intros Hchanged. unfold index_file, check_changed.
  rewrite bool_decide_eq_false_2 by done.
  destruct (read_text path); cbn [snd _hash_cache]; apply lookup_insert_eq.
Qed.

(** After a pass that is not forced the cache holds the file's hash. *)
Lemma index_file_syncs_cache self path :
  _hash_cache (index_file E self path false).2 !! rel_path path
  = Some (file_hash path).
Proof.
  destruct (decide (_hash_cache self !! rel_path path = Some (file_hash path)))
    as [Hsame|Hchanged].
  - unfold index_file, check_changed. by rewrite bool_decide_eq_true_2.
  - by apply index_file_changed_updates_cache.
Qed.

End HashCache.

(** C3 on the failing input: [index_file(a.js, force=True)] on a fresh
    ingestor indexes one chunk and leaves the hash cache without an entry
    for [a.js], whose hash is [h1]; the same call without [force] records
    it. *)
Theorem forced_index_file_leaves_cache_stale :
  (ingestor.index_file fixtures.world fixtures.fresh fixtures.a_js true).1 = 1
  /\ ingestor._hash_cache
       (ingestor.index_file fixtures.world fixtures.fresh fixtures.a_js true).2
     !! "a.js" = None
  /\ ingestor._hash_cache
       (ingestor.index_file fixtures.world fixtures.fresh fixtures.a_js false).2
     !! "a.js" = Some "h1".
Proof. repeat split; vm_compute; reflexivity. Qed.

(** ** review.py: risk reasons *)

Section Risk.
Import review.

(** The reasons [_calculate_risk_level] returns: one for each of the
    three [+2] branches, and one for the [+1] branch of the related
    files; none for the [+1] branches of changed lines and changed
    files. *)
Lemma reasons_count {A} (changed_files : list changed_file) (related_files : list A) :
  let total_changes :=
    sum_list ((fun f => default 0 (additions f) + default 0 (deletions f))
                <$> changed_files) in
  length (score_and_reasons changed_files related_files).2
  = (if 500 <? total_changes then 1 else 0)
    + (if 10 <? length changed_files then 1 else 0)
    + (if 0 <? length related_files then 1 else 0).
Proof.
  intros total_changes. unfold score_and_reasons. fold total_changes.
  destruct (500 <? total_changes), (100 <? total_changes),
    (10 <? length changed_files), (5 <? length changed_files),
    (3 <? length related_files) eqn:H3, (0 <? length related_files) eqn:H0;
    try reflexivity.
  all: apply Nat.ltb_lt in H3; apply Nat.ltb_ge in H0; lia.
Qed.

End Risk.

(** C6 on the failing input: six changed files of 30 added and 10 deleted
    lines each (240 lines) and no related file.  Two conditions add a point
    each, the level is [Medium], and no reason is returned. *)
Theorem moderate_changes_score_without_reason :
  review.score_and_reasons fixtures.six_moderate_files (@nil index.SearchResult) = (2, [])
  /\ review.contributing_conditions fixtures.six_moderate_files (@nil index.SearchResult) = 2
  /\ review._calculate_risk_level fixtures.six_moderate_files (@nil index.SearchResult)
     = ("Medium", []).
Proof. repeat split; vm_compute; reflexivity. Qed.

(** ** index.py: remove_file *)

(** [remove_file] answers [True] whatever the collection holds. *)
Lemma remove_file_returns_true (self : index.CodeIndex) (file_path : string) :
  (index.remove_file self file_path).1 = true.
Proof. reflexivity. Qed.

(** C7 on the failing input: [remove_file("missing.py")] on an empty index
    finds no document to delete and returns [True]. *)
Theorem remove_file_of_absent_document_returns_true :
  index._collection (index.__init__ ∅) !! index.file_doc_id "missing.py" = None
  /\ (index.remove_file (index.__init__ ∅) "missing.py").1 = true
  /\ index._collection (index.remove_file (index.__init__ ∅) "missing.py").2 = ∅.
Proof. repeat split; vm_compute; reflexivity. Qed.

(** ** index.py: add_chunk and the collection *)

Section AddChunk.
Import index.
Variable E : Externals.

Lemma embedder_embed_collection self text :
  _collection (embedder_embed E self text).2 = _collection self.
Proof.
  unfold embedder_embed, embedder.
  destruct (_embedder self) as [m|];
    by destruct (embeddings.embed _ _ _ text) as [v m'].
Qed.

(** The dedup path: a stored document with the incoming content hash
    makes [add_chunk] return at once. *)
Lemma add_chunk_unchanged self file_path chunk_id content metadata d :
  _collection self !! chunk_doc_id file_path chunk_id = Some d ->
  doc_metadata d !! "content_hash" = Some (MStr (_hash_content E content)) ->
  add_chunk E self file_path chunk_id content metadata
  = (chunk_doc_id file_path chunk_id, self).
Proof.
  intros Hd Hhash. unfold add_chunk, chroma.get, unchanged.
  by rewrite Hd, bool_decide_eq_true_2.
Qed.

(** Otherwise [add_chunk] embeds the content and writes the document. *)
Lemma add_chunk_changed self file_path chunk_id content metadata :
  unchanged (_collection self !! chunk_doc_id file_path chunk_id)
    (_hash_content E content) = false ->
  exists embedding embedder,
    (add_chunk E self file_path chunk_id content metadata).2
    = {| _collection :=
           chroma.upsert (_collection self) (chunk_doc_id file_path chunk_id)
             embedding content
             (default ∅ metadata
              ∪ <["content_hash" := MStr (_hash_content E content)]>
                  (<["chunk_id" := MStr chunk_id]>
                     (<["file_path" := MStr file_path]> ∅)));
         _embedder := embedder;
         trace := (trace self ++ [Embedded content])
                  ++ [Upserted (chunk_doc_id file_path chunk_id)] |}.
Proof.
  intros Hchanged. unfold add_chunk, chroma.get. rewrite Hchanged.
  pose proof (embedder_embed_collection self content) as Hcoll.
  unfold embedder_embed, embedder in *.
  destruct (_embedder self) as [m|];
    destruct (embeddings.embed _ _ _ content) as [v m']; simpl in *;
    unfold collection_upsert; simpl; eauto.
Qed.

(** After [add_chunk] the document under the chunk's id carries the hash
    of the content, unless the caller's metadata overrides that key. *)
Lemma add_chunk_stores_hash self file_path chunk_id content metadata :
  default ∅ metadata !! "content_hash" = None ->
  exists d,
    _collection (add_chunk E self file_path chunk_id content metadata).2
      !! chunk_doc_id file_path chunk_id = Some d
    /\ doc_metadata d !! "content_hash" = Some (MStr (_hash_content E content)).
Proof.
  intros Hmeta.
  destruct (unchanged (_collection self !! chunk_doc_id file_path chunk_id)
              (_hash_content E content)) eqn:Hun.
  - unfold unchanged in Hun.
    destruct (_collection self !! chunk_doc_id file_path chunk_id) as [d|] eqn:Hd;
      [|done].
    apply bool_decide_eq_true_1 in Hun.
    rewrite (add_chunk_unchanged _ _ _ _ _ d) by done. eauto.
  - destruct (add_chunk_changed self file_path chunk_id content metadata Hun)
      as (v & m & ->).
    eexists. split.
    + cbn [_collection]. unfold chroma.upsert. apply lookup_insert_eq.
    + cbn [doc_metadata]. rewrite lookup_union_r by done.
      apply lookup_insert_eq.
Qed.

(** Every id [add_chunk] writes contains the separator ["::"]. *)
Lemma add_chunk_keys self file_path chunk_id content metadata :
  map_Forall (fun doc_id _ => pystr.has_double_colon doc_id = true) (_collection self) ->
  map_Forall (fun doc_id _ => pystr.has_double_colon doc_id = true)
    (_collection (add_chunk E self file_path chunk_id content metadata).2).
Proof.
  intros Hkeys.
  destruct (unchanged (_collection self !! chunk_doc_id file_path chunk_id)
              (_hash_content E content)) eqn:Hun.
  - unfold add_chunk, chroma.get. by rewrite Hun.
  - destruct (add_chunk_changed self file_path chunk_id content metadata Hun)
      as (v & m & ->).
    cbn [_collection]. unfold chroma.upsert.
    apply map_Forall_insert_2; [apply chunk_doc_id_has_double_colon | done].
Qed.

End AddChunk.

Section Populated.
Import index ingestor.
Variable E : Externals.

Lemma index_chunks_keys rel_path language chunks idx :
  map_Forall (fun doc_id _ => pystr.has_double_colon doc_id = true) (_collection idx) ->
  map_Forall (fun doc_id _ => pystr.has_double_colon doc_id = true)
    (_collection (foldl (index_chunk E rel_path language) idx chunks)).
Proof.
  revert idx. induction chunks as [|c chunks IH]; intros idx Hkeys; [done |].
  simpl. apply IH. unfold index_chunk. by apply add_chunk_keys.
Qed.

(** A store filled by [index_file] holds chunk ids only. *)
Lemma populated_keys self :
  populated E self ->
  map_Forall (fun doc_id _ => pystr.has_double_colon doc_id = true)
    (_collection (index self)).
Proof.
  induction 1 as [loaded|self path force _ IH].
  - apply map_Forall_empty.
  - unfold index_file.
    destruct (check_changed self path force) as [self'|] eqn:Hcheck; [|done].
    assert (index self' = index self) as Hidx.
    { unfold check_changed in Hcheck. destruct force; [by simplify_eq |].
      case_bool_decide; by simplify_eq. }
    destruct (read_text path) as [content|]; cbn [snd index]; rewrite ?Hidx; [|done].
    by apply index_chunks_keys.
Qed.

End Populated.

(** C4: indexing is idempotent on unchanged content.  (1) After
    [index_file(path)] a second [index_file(path)] on the same file returns
    0 and leaves the ingestor as it was: hash cache, vector store and the
    record of embeddings and writes.  (2) [add_chunk] on an id whose stored
    document carries the content hash of the incoming content returns the
    id and leaves the index as it was: nothing is embedded, nothing is
    written.  (3) In particular a second [add_chunk] with the same path,
    chunk id and content is such a call, whenever the metadata of the first
    call does not itself set [content_hash]. *)
Theorem indexing_unchanged_content_is_idempotent (E : Externals) :
  (forall (self : ingestor.FileIngestor) (path : ingestor.file),
      let once := (ingestor.index_file E self path false).2 in
      ingestor.index_file E once path false = (0, once))
  /\ (forall (self : index.CodeIndex) (file_path chunk_id content : string)
             (metadata : option (gmap string mvalue)) (d : document),
         index._collection self !! index.chunk_doc_id file_path chunk_id = Some d ->
         doc_metadata d !! "content_hash" = Some (MStr (index._hash_content E content)) ->
         index.add_chunk E self file_path chunk_id content metadata
         = (index.chunk_doc_id file_path chunk_id, self))
  /\ (forall (self : index.CodeIndex) (file_path chunk_id content : string)
             (metadata metadata' : option (gmap string mvalue)),
         default ∅ metadata !! "content_hash" = None ->
         let once := (index.add_chunk E self file_path chunk_id content metadata).2 in
         index.add_chunk E once file_path chunk_id content metadata'
         = (index.chunk_doc_id file_path chunk_id, once)).
Proof.
  split; [|split].
  - intros self path once.
    pose proof (index_file_syncs_cache E self path) as Hsync. fold once in Hsync.
    unfold ingestor.index_file at 1, ingestor.check_changed.
    by rewrite bool_decide_eq_true_2.
  - intros self file_path chunk_id content metadata d. apply add_chunk_unchanged.
  - intros self file_path chunk_id content metadata metadata' Hmeta once.
    destruct (add_chunk_stores_hash E self file_path chunk_id content metadata Hmeta)
      as (d & Hd & Hhash).
    by apply (add_chunk_unchanged E once _ _ _ _ d).
Qed.

(** C4 on [a.js]: indexing it a second time, and adding its one chunk a
    second time, change nothing. *)
Lemma indexing_unchanged_content_witness :
  ingestor.index_file fixtures.world fixtures.indexed_a fixtures.a_js false
  = (0, fixtures.indexed_a)
  /\ (let once := (index.add_chunk fixtures.world (index.__init__ ∅)
                     "a.js" "full" "x" None).2 in
      index.trace once = [index.Embedded "x"; index.Upserted "a_js::full"]
      /\ index.add_chunk fixtures.world once "a.js" "full" "x" None
         = ("a_js::full", once)).
Proof.
  split; [|split].
  - apply (proj1 (indexing_unchanged_content_is_idempotent fixtures.world)
             fixtures.fresh fixtures.a_js).
  - reflexivity.
  - apply (proj2 (proj2 (indexing_unchanged_content_is_idempotent fixtures.world))
             (index.__init__ ∅) "a.js" "full" "x" None None).
    reflexivity.
Defined.

(** ** index.py: get_related_files *)

Section Related.
Import index.
Variable E : Externals.
Variable changed_files : list string.

Lemma dict_set_outside related k v :
  Forall (outside changed_files) related.*2 -> outside changed_files v -> Forall (outside changed_files) (dict_set related k v).*2.
Proof.
  intros Hrel Hv. induction related as [|[k' v'] related IH]; simpl.
  - by constructor.
  - apply Forall_cons in Hrel as [Hv' Hrel].
    case_bool_decide; simpl; constructor; auto.
Qed.

Lemma merge_match_outside related m :
  Forall (outside changed_files) related.*2 ->
  Forall (outside changed_files) (merge_match changed_files related m).*2.
Proof.
  intros Hrel. unfold merge_match.
  destruct (path_in (sr_file_path m) changed_files) eqn:Hin; [done |].
  destruct (dict_get related (sr_file_path m)) as [best|].
  - destruct (Qlt_bool _ _); [by apply dict_set_outside | done].
  - by apply dict_set_outside.
Qed.

Lemma merge_matches_outside matches related :
  Forall (outside changed_files) related.*2 ->
  Forall (outside changed_files) (foldl (merge_match changed_files) related matches).*2.
Proof.
  revert related. induction matches as [|m matches IH]; intros related Hrel; [done |].
  simpl. apply IH. by apply merge_match_outside.
Qed.

Lemma related_step_outside n_results acc file_path :
  Forall (outside changed_files) acc.1.*2 ->
  Forall (outside changed_files) (related_step E changed_files n_results acc file_path).1.*2.
Proof.
  destruct acc as [related self]. intros Hrel. unfold related_step.
  destruct (chroma.get _ _) as [d|]; [|done].
  destruct (doc_content d) as [|c content] eqn:Hcontent; [done |].
  destruct (search E self _ _ _) as [matches self'].
  by apply merge_matches_outside.
Qed.

Lemma related_steps_outside n_results files acc :
  Forall (outside changed_files) acc.1.*2 ->
  Forall (outside changed_files) (foldl (related_step E changed_files n_results) acc files).1.*2.
Proof.
  revert acc. induction files as [|f files IH]; intros acc Hrel; [done |].
  simpl. apply IH. by apply related_step_outside.
Qed.

Lemma insert_by_Forall {A} (P : A -> Prop) key x l :
  P x -> Forall P l -> Forall P (insert_by key x l).
Proof.
  intros Hx Hl. induction Hl as [|y l Hy Hl IH]; simpl.
  - by constructor.
  - destruct (Qle_bool _ _); repeat constructor; auto.
Qed.

Lemma sorted_by_Forall {A} (P : A -> Prop) key l :
  Forall P l -> Forall P (sorted_by key l).
Proof.
  induction 1 as [|x l Hx Hl IH]; simpl; [constructor |].
  by apply insert_by_Forall.
Qed.

(** A changed file without a stored whole-file document is skipped. *)
Lemma related_step_skip n_results acc file_path :
  _collection acc.2 !! file_doc_id file_path = None ->
  related_step E changed_files n_results acc file_path = acc.
Proof.
  destruct acc as [related self]. intros Habsent.
  unfold related_step, chroma.get. simpl in Habsent. by rewrite Habsent.
Qed.

Lemma related_steps_skip n_results files acc :
  Forall (fun p => _collection acc.2 !! file_doc_id p = None) files ->
  foldl (related_step E changed_files n_results) acc files = acc.
Proof.
  induction 1 as [|f files Hf _ IH]; [done |].
  simpl. by rewrite related_step_skip.
Qed.

End Related.

(** C10: whatever the store holds, no result of [get_related_files] has a
    [file_path] that is one of the changed files. *)
Theorem related_files_exclude_changed_files
    (E : Externals) (self : index.CodeIndex)
    (changed_files : list string) (n_results : nat) :
  Forall (fun r => forall p, p ∈ changed_files -> index.sr_file_path r <> MStr p)
    (index.get_related_files E self changed_files n_results).1.
Proof.
  unfold index.get_related_files.
  pose proof (related_steps_outside E changed_files n_results changed_files ([], self))
    as Hout.
  destruct (foldl _ _ _) as [related self'].
  cbn [fst] in *.
  eapply Forall_impl; [apply sorted_by_Forall, Hout; constructor |].
  intros r Hr p Hp Heq. unfold index.outside, index.path_in in Hr.
  rewrite Heq in Hr. by apply bool_decide_eq_false_1 in Hr.
Qed.

(** C1 (amended): when the vector store was filled by [index_file] alone,
    [get_related_files] returns the empty list for every list of changed
    files in which no path contains ["::"]: the whole-file id it looks up
    is then no id of the store, and every changed file is skipped. *)
Theorem related_files_empty_after_index_file
    (E : Externals) (self : ingestor.FileIngestor)
    (changed_files : list string) (n_results : nat) :
  ingestor.populated E self ->
  Forall (fun p => pystr.has_double_colon p = false) changed_files ->
  (index.get_related_files E (ingestor.index self) changed_files n_results).1 = [].
Proof.
  intros Hpop Hpaths. unfold index.get_related_files.
  rewrite related_steps_skip; [done |].
  eapply Forall_impl; [exact Hpaths |].
  intros p Hp. cbn [snd].
  destruct (index._collection (ingestor.index self) !! index.file_doc_id p)
    as [d|] eqn:Hd; [|done].
  apply (populated_keys E self Hpop) in Hd.
  by rewrite file_doc_id_has_double_colon, Hp in Hd.
Qed.

(** C1 (amended) on the store that holds [a.js]: asking for the files
    related to [a.js] returns nothing. *)
Lemma related_files_empty_witness :
  (index.get_related_files fixtures.world (ingestor.index fixtures.indexed_a)
     ["a.js"] 5).1 = [].
Proof.
  apply related_files_empty_after_index_file.
  - apply ingestor.populated_index_file, ingestor.populated_new.
  - repeat constructor.
Defined.

(** C1 as stated fails: in the store that holds [a.js], the chunk id
    [a_js::full] is the whole-file id of the path [a_js::full]; with that
    path as the changed file, [get_related_files] returns [a.js]. *)
Lemma related_files_found_through_chunk_id :
  ingestor.populated fixtures.world fixtures.indexed_a
  /\ index.file_doc_id "a_js::full" = index.chunk_doc_id "a.js" "full"
  /\ index.sr_file_path <$>
       (index.get_related_files fixtures.world (ingestor.index fixtures.indexed_a)
          ["a_js::full"] 5).1
     = [MStr "a.js"].
Proof.
  split; [apply ingestor.populated_index_file, ingestor.populated_new |].
  split; vm_compute; reflexivity.
Qed.

(** * Further properties of the sources *)

(** ** ingestor.py: windowed chunking in closed form *)

Section Windows.
Import pystr ingestor.

Lemma ceil_div_reaches a b : 0 < b -> a <= ceil_div a b * b.
Proof.
  intros Hb. unfold ceil_div.
  pose proof (Nat.div_mod_eq (a + (b - 1)) b) as Hdiv.
  pose proof (Nat.mod_upper_bound (a + (b - 1)) b) as Hmod.
  nia.
Qed.

Lemma ceil_div_below a b k : 0 < b -> k < ceil_div a b -> k * b < a.
Proof.
  intros Hb. unfold ceil_div.
  pose proof (Nat.div_mod_eq (a + (b - 1)) b) as Hdiv.
  pose proof (Nat.mod_upper_bound (a + (b - 1)) b) as Hmod.
  nia.
Qed.

Lemma ceil_div_le a b : 0 < b -> ceil_div a b <= a.
Proof.
  intros Hb. destruct (ceil_div a b) as [|n] eqn:Hn; [lia |].
  pose proof (ceil_div_below a b n Hb) as Hlt. rewrite Hn in Hlt. nia.
Qed.

Lemma stride_positive : 0 < CHUNK_SIZE - CHUNK_OVERLAP.
Proof. unfold CHUNK_SIZE, CHUNK_OVERLAP. lia. Qed.

Lemma stride_le_chunk_size : CHUNK_SIZE - CHUNK_OVERLAP <= CHUNK_SIZE.
Proof. lia. Qed.

(** From iteration [k] on, the loop emits the remaining windows. *)
Lemma chunk_loop_windows content m :
  forall fuel k,
    m <= fuel ->
    k + m = ceil_div (String.length content) (CHUNK_SIZE - CHUNK_OVERLAP) ->
    chunk_loop fuel content (k * (CHUNK_SIZE - CHUNK_OVERLAP)) k
    = Some (window content <$> seq k m).
Proof.
  pose proof stride_positive as Hpos.
  induction m as [|m IH]; intros fuel k Hfuel Hk.
  - apply chunk_loop_done. rewrite Nat.add_0_r in Hk. rewrite Hk.
    by apply ceil_div_reaches.
  - destruct fuel as [|fuel]; [lia |].
    rewrite chunk_loop_S.
    assert ((k * (CHUNK_SIZE - CHUNK_OVERLAP) <? String.length content) = true) as ->.
    { apply Nat.ltb_lt, ceil_div_below; [done | lia]. }
    replace (k * (CHUNK_SIZE - CHUNK_OVERLAP) + (CHUNK_SIZE - CHUNK_OVERLAP))
      with (S k * (CHUNK_SIZE - CHUNK_OVERLAP)) by lia.
    rewrite Nat.add_1_r, (IH fuel (S k)) by lia.
    reflexivity.
Qed.

Lemma chunk_by_lines_large content file_path :
  CHUNK_SIZE < String.length content ->
  _chunk_by_lines content file_path
  = window content
      <$> seq 0 (ceil_div (String.length content) (CHUNK_SIZE - CHUNK_OVERLAP)).
Proof.
  intros Hlen. unfold _chunk_by_lines.
  assert ((String.length content <=? CHUNK_SIZE) = false) as -> by by apply Nat.leb_gt.
  pose proof (chunk_loop_windows content
                (ceil_div (String.length content) (CHUNK_SIZE - CHUNK_OVERLAP))
                (String.length content) 0) as Hloop.
  rewrite Nat.mul_0_l in Hloop. rewrite Hloop; [done | | done].
  apply ceil_div_le, stride_positive.
Qed.

Lemma chunk_by_lines_small content file_path :
  String.length content <= CHUNK_SIZE ->
  _chunk_by_lines content file_path
  = [ {| c_id := "full"; c_content := content;
         c_metadata := <["type" := MStr "full_file"]> ∅ |} ].
Proof.
  intros Hlen. unfold _chunk_by_lines.
  by assert ((String.length content <=? CHUNK_SIZE) = true) as -> by by apply Nat.leb_le.
Qed.

Lemma length_substring (s : string) n m :
  String.length (String.substring n m s) = m `min` (String.length s - n).
Proof.
  revert n m. induction s as [|c s IH]; intros n m.
  - destruct n, m; simpl; lia.
  - destruct n as [|n].
    + destruct m as [|m]; simpl; [done |]. rewrite IH. lia.
    + simpl. rewrite IH. done.
Qed.

Lemma substring_all (s : string) m :
  String.length s <= m -> String.substring 0 m s = s.
Proof.
  revert m. induction s as [|c s IH]; intros m Hm.
  - by destruct m.
  - destruct m as [|m]; simpl in *; [lia |]. f_equal. apply IH. lia.
Qed.

Lemma length_window content k :
  String.length (c_content (window content k))
  = CHUNK_SIZE `min` (String.length content - k * (CHUNK_SIZE - CHUNK_OVERLAP)).
Proof.
  unfold window, slice. cbn [c_content]. rewrite length_substring. lia.
Qed.

End Windows.

(** X1: for a text longer than [CHUNK_SIZE], [_chunk_by_lines] returns the
    windows number 0, 1, ..., [n - 1] in this order, where [n] is the length
    of the text divided by the stride [CHUNK_SIZE - CHUNK_OVERLAP], rounded
    up; window [k] is named [chunk_k], starts at [k] times the stride and
    holds at most [CHUNK_SIZE] characters from there. *)
Theorem windowed_chunks_closed_form (content file_path : string) :
  ingestor.CHUNK_SIZE < String.length content ->
  ingestor._chunk_by_lines content file_path
  = ingestor.window content
      <$> seq 0 (ingestor.ceil_div (String.length content)
                   (ingestor.CHUNK_SIZE - ingestor.CHUNK_OVERLAP)).
Proof. apply chunk_by_lines_large. Qed.

(** X1 on 4000 letters: three windows. *)
Lemma windowed_chunks_closed_form_witness :
  ingestor._chunk_by_lines (fixtures.repeat_char 4000 "a") "big.js"
  = ingestor.window (fixtures.repeat_char 4000 "a")
      <$> seq 0 (ingestor.ceil_div (String.length (fixtures.repeat_char 4000 "a"))
                   (ingestor.CHUNK_SIZE - ingestor.CHUNK_OVERLAP)).
Proof.
  apply windowed_chunks_closed_form.
  apply Nat.ltb_lt. vm_compute. reflexivity.
Defined.

(** X2: no chunk of [_chunk_by_lines] holds more than [CHUNK_SIZE]
    characters, and none is empty unless the text itself is empty. *)
Theorem windowed_chunks_bounded (content file_path : string) :
  Forall (fun c =>
            String.length (ingestor.c_content c) <= ingestor.CHUNK_SIZE
            /\ (0 < String.length content -> 0 < String.length (ingestor.c_content c)))
    (ingestor._chunk_by_lines content file_path).
Proof.
  destruct (decide (String.length content <= ingestor.CHUNK_SIZE)) as [Hsmall|Hlarge].
  - rewrite chunk_by_lines_small by done. apply Forall_singleton.
    cbn [ingestor.c_content]. split; [done | done].
  - rewrite chunk_by_lines_large by lia.
    apply Forall_fmap, Forall_forall. intros k Hk%elem_of_seq. unfold compose.
    rewrite length_window.
    pose proof (ceil_div_below (String.length content)
                  (ingestor.CHUNK_SIZE - ingestor.CHUNK_OVERLAP) k stride_positive).
    pose proof stride_positive. lia.
Qed.

(** X3: windowed chunking loses no text: every character offset of the
    text lies in some chunk, and that chunk is the piece of the text that
    starts at the chunk's start offset. *)
Theorem windowed_chunks_cover_text (content file_path : string) (i : nat) :
  i < String.length content ->
  exists (c : ingestor.chunk) (start : nat),
    c ∈ ingestor._chunk_by_lines content file_path
    /\ start <= i < start + String.length (ingestor.c_content c)
    /\ ingestor.c_content c
       = pystr.slice start (start + ingestor.CHUNK_SIZE) content.
Proof.
  intros Hi.
  destruct (decide (String.length content <= ingestor.CHUNK_SIZE)) as [Hsmall|Hlarge].
  - rewrite chunk_by_lines_small by done.
    eexists _, 0. split; [apply list_elem_of_singleton; reflexivity |].
    cbn [ingestor.c_content]. split; [lia |].
    unfold pystr.slice. rewrite substring_all; [done | lia].
  - rewrite chunk_by_lines_large by lia.
    pose proof stride_positive as Hpos.
    set (stride := ingestor.CHUNK_SIZE - ingestor.CHUNK_OVERLAP) in *.
    pose proof (Nat.div_mod_eq i stride) as Hdiv.
    pose proof (Nat.mod_upper_bound i stride) as Hmod.
    assert (i `div` stride < ingestor.ceil_div (String.length content) stride) as Hk.
    { apply Nat.nle_gt. intros Hge.
      pose proof (ceil_div_reaches (String.length content) stride Hpos). nia. }
    exists (ingestor.window content (i `div` stride)), (i `div` stride * stride).
    split; [|split].
    + apply list_elem_of_fmap. eexists. split; [done |]. apply elem_of_seq. lia.
    + rewrite length_window. fold stride.
      pose proof stride_le_chunk_size. fold stride in H. nia.
    + reflexivity.
Qed.

(** X3 on 4000 letters, at offset 3999. *)
Lemma windowed_chunks_cover_text_witness :
  exists (c : ingestor.chunk) (start : nat),
    c ∈ ingestor._chunk_by_lines (fixtures.repeat_char 4000 "a") "big.js"
    /\ start <= 3999 < start + String.length (ingestor.c_content c)
    /\ ingestor.c_content c
       = pystr.slice start (start + ingestor.CHUNK_SIZE) (fixtures.repeat_char 4000 "a").
Proof.
  apply windowed_chunks_cover_text.
  apply Nat.ltb_lt. vm_compute. reflexivity.
Defined.

Section WindowIds.
Import pystr ingestor.

Lemma last_window content n :
  last (window content <$> seq 0 (S n)) = Some (window content n).
Proof. by rewrite fmap_last, seq_S, last_snoc. Qed.

Lemma ceil_div_positive a b : 0 < b -> 0 < a -> 0 < ceil_div a b.
Proof.
  intros Hb Ha. pose proof (ceil_div_reaches a b Hb).
  destruct (ceil_div a b); lia.
Qed.

Lemma chunk_by_lines_nonempty content file_path :
  _chunk_by_lines content file_path <> [].
Proof.
  destruct (decide (String.length content <= CHUNK_SIZE)) as [Hsmall|Hlarge].
  - by rewrite chunk_by_lines_small.
  - rewrite chunk_by_lines_large by lia.
    pose proof (ceil_div_positive (String.length content)
                  (CHUNK_SIZE - CHUNK_OVERLAP) stride_positive) as Hn.
    destruct (ceil_div _ _); [lia | done].
Qed.

Lemma append_inv_head (s a b : string) : s ++ a = s ++ b -> a = b.
Proof.
  induction s as [|c s IH]; [done |].
  rewrite !append_String. intros [= H]. auto.
Qed.

Lemma replace_String_other old new c s :
  c <> old -> replace old new s = s -> replace old new (String c s) = String c s.
Proof.
  intros Hc Hs. simpl. rewrite Hs.
  by destruct (Ascii.eqb_spec c old).
Qed.

(** Decimal digits are left alone by the replacement of ['/'] and ['.']. *)
Lemma replace_pretty_N_go old new x s :
  old = "/"%char \/ old = "."%char ->
  replace old new s = s ->
  replace old new (pretty_N_go x s) = pretty_N_go x s.
Proof.
  intros Hold. revert s.
  induction (N.lt_wf_0 x) as [x _ IH]; intros s Hs.
  assert (x = 0 \/ 0 < x)%N as [->|Hx] by lia.
  - by rewrite pretty_N_go_0.
  - rewrite pretty_N_go_step by done. apply IH.
    { by apply N.div_lt. }
    apply replace_String_other; [|done].
    unfold pretty_N_char. destruct Hold as [-> | ->]; by repeat case_match.
Qed.

Lemma replace_pretty old new (n : nat) :
  old = "/"%char \/ old = "."%char ->
  replace old new (pretty n) = pretty n.
Proof.
  intros Hold. unfold pretty, pretty_nat, pretty, pretty_N.
  case_decide.
  - destruct Hold as [-> | ->]; reflexivity.
  - by apply replace_pretty_N_go.
Qed.

Lemma window_doc_id file_path content k :
  index.chunk_doc_id file_path (c_id (window content k))
  = index.file_doc_id file_path ++ "::chunk_" ++ pretty k.
Proof.
  rewrite chunk_doc_id_split. cbn [window c_id].
  unfold index.file_doc_id at 2.
  rewrite !replace_app, !replace_pretty by auto.
  reflexivity.
Qed.

End WindowIds.

(** X4: for a text longer than [CHUNK_SIZE], the last chunk of
    [_chunk_by_lines] records the length of the text as its [end_char]:
    the final window is cut at the end of the text. *)
Theorem last_window_ends_at_end_of_text (content file_path : string) :
  ingestor.CHUNK_SIZE < String.length content ->
  exists c : ingestor.chunk,
    last (ingestor._chunk_by_lines content file_path) = Some c
    /\ ingestor.c_metadata c !! "end_char" = Some (MInt (String.length content)).
Proof.
  intros Hlen. rewrite chunk_by_lines_large by done.
  pose proof stride_positive as Hpos.
  pose proof (ceil_div_positive (String.length content) _ Hpos) as Hn.
  pose proof (ceil_div_reaches (String.length content) _ Hpos) as Hreach.
  destruct (ingestor.ceil_div _ _) as [|n]; [lia |].
  rewrite last_window. eexists. split; [done |].
  cbn [ingestor.window ingestor.c_metadata].
  rewrite !lookup_insert_ne, lookup_insert_eq by done.
  do 2 f_equal. pose proof stride_le_chunk_size. nia.
Qed.

(** X4 on 4000 letters. *)
Lemma last_window_ends_at_end_of_text_witness :
  exists c : ingestor.chunk,
    last (ingestor._chunk_by_lines (fixtures.repeat_char 4000 "a") "big.js") = Some c
    /\ ingestor.c_metadata c !! "end_char"
       = Some (MInt (String.length (fixtures.repeat_char 4000 "a"))).
Proof.
  apply last_window_ends_at_end_of_text.
  apply Nat.ltb_lt. vm_compute. reflexivity.
Defined.

(** X5: the chunks [_chunk_by_lines] cuts from one file receive pairwise
    distinct document ids from [add_chunk], so no window of a file
    overwrites another window of that file in the store. *)
Theorem windowed_chunks_have_distinct_doc_ids (content file_path : string) :
  NoDup ((fun c => index.chunk_doc_id file_path (ingestor.c_id c))
           <$> ingestor._chunk_by_lines content file_path).
Proof.
  destruct (decide (String.length content <= ingestor.CHUNK_SIZE)) as [Hsmall|Hlarge].
  - rewrite chunk_by_lines_small by done. apply NoDup_singleton.
  - rewrite chunk_by_lines_large by lia. rewrite <- list_fmap_compose.
    apply NoDup_fmap_2; [|apply NoDup_seq].
    intros k1 k2. unfold compose. rewrite !window_doc_id.
    intros H%append_inv_head%append_inv_head. by apply (inj pretty).
Qed.

Section ZeroChunks.
Import ingestor.
Variable E : Externals.

Lemma chunk_file_nonempty path content : _chunk_file E path content <> [].
Proof.
  unfold _chunk_file, _chunk_python.
  case_bool_decide; [|apply chunk_by_lines_nonempty].
  destruct (ast_parse E content) as [walk|]; [|apply chunk_by_lines_nonempty].
  by destruct (_ <$> _).
Qed.


End ZeroChunks.


(** ** index.py and ingestor.py: what an ingested store holds *)

Section StoreInvariant.
Import index ingestor.
Variable E : Externals.

(** With its embedder in fallback mode, the index embeds by hashing. *)
Lemma embedder_embed_fallback self text :
  embedder_in_fallback self ->
  embedder_embed E self text
  = (_simple_hash_embedding E text 384,
     {| _collection := _collection self;
        _embedder := Some (default (embeddings.__init__ embeddings.DEFAULT_MODEL true)
                             (_embedder self));
        trace := trace self ++ [Embedded text] |}).
Proof.
  intros Hemb. unfold embedder_embed, embedder.
  destruct (_embedder self) as [m|] eqn:Hm.
  - destruct (Hemb m Hm) as [Hfb Hdim].
    unfold embeddings.embed. by rewrite Hfb, Hdim.
  - reflexivity.
Qed.

Lemma embedder_embed_keeps_fallback self text :
  embedder_in_fallback self -> embedder_in_fallback (embedder_embed E self text).2.
Proof.
  intros Hemb. rewrite embedder_embed_fallback by done.
  intros m [= <-]. destruct (_embedder self) as [m'|] eqn:Hm; [by apply Hemb | done].
Qed.

Lemma add_chunk_keeps_fallback self file_path chunk_id content metadata :
  embedder_in_fallback self ->
  embedder_in_fallback (add_chunk E self file_path chunk_id content metadata).2.
Proof.
  intros Hemb. unfold add_chunk.
  destruct (unchanged _ _); [done |].
  pose proof (embedder_embed_keeps_fallback self content Hemb) as Hemb'.
  destruct (embedder_embed E self content) as [v self']. exact Hemb'.
Qed.

(** [add_chunk] with metadata that sets none of the three keys it computes
    keeps the store consistent. *)
Lemma add_chunk_consistent self file_path chunk_id content metadata :
  default ∅ metadata !! "file_path" = None ->
  default ∅ metadata !! "chunk_id" = None ->
  default ∅ metadata !! "content_hash" = None ->
  embedder_in_fallback self ->
  map_Forall (consistent E) (_collection self) ->
  map_Forall (consistent E)
    (_collection (add_chunk E self file_path chunk_id content metadata).2).
Proof.
  intros Hp Hc Hh Hemb Hstore. unfold add_chunk.
  destruct (unchanged _ _); [done |].
  rewrite embedder_embed_fallback by done.
  cbn [snd collection_upsert _collection]. unfold chroma.upsert.
  apply map_Forall_insert_2; [|done].
  exists file_path, chunk_id. cbn [doc_metadata doc_content doc_embedding].
  rewrite !lookup_union_r by done.
  rewrite lookup_insert_eq.
  rewrite !(lookup_insert_ne _ "content_hash") by done.
  rewrite lookup_insert_eq, (lookup_insert_ne _ "chunk_id") by done.
  by rewrite lookup_insert_eq.
Qed.

(** The keys the chunkers put into chunk metadata. *)
Lemma chunk_file_metadata path content key :
  key ∉ ["type"; "name"; "start_line"; "end_line";
         "chunk_num"; "start_char"; "end_char"] ->
  Forall (fun c => c_metadata c !! key = None) (_chunk_file E path content).
Proof.
  intros Hkey.
  assert (Hlines : forall file_path,
             Forall (fun c => c_metadata c !! key = None)
               (_chunk_by_lines content file_path)).
  { intros file_path.
    destruct (decide (String.length content <= CHUNK_SIZE)) as [Hsmall|Hlarge].
    - rewrite chunk_by_lines_small by done. apply Forall_singleton.
      cbn [c_metadata]. rewrite lookup_insert_ne by set_solver. done.
    - rewrite chunk_by_lines_large by lia.
      apply Forall_fmap, Forall_forall. intros k _. unfold compose.
      cbn [window c_metadata]. rewrite !lookup_insert_ne by set_solver. done. }
  unfold _chunk_file, _chunk_python.
  case_bool_decide; [|apply Hlines].
  destruct (ast_parse E content) as [walk|]; [|apply Hlines].
  destruct (_ <$> _) as [|c chunks] eqn:Hchunks.
  - apply Forall_singleton. cbn [c_metadata].
    rewrite lookup_insert_ne by set_solver. done.
  - rewrite <- Hchunks. apply Forall_fmap, Forall_forall. intros node _.
    unfold compose, definition_chunk. cbn [c_metadata].
    rewrite !lookup_insert_ne by set_solver. done.
Qed.

Lemma index_chunks_consistent rel_path language chunks idx :
  Forall (fun c => c_metadata c !! "file_path" = None
                   /\ c_metadata c !! "chunk_id" = None
                   /\ c_metadata c !! "content_hash" = None) chunks ->
  embedder_in_fallback idx ->
  map_Forall (consistent E) (_collection idx) ->
  embedder_in_fallback (foldl (index_chunk E rel_path language) idx chunks)
  /\ map_Forall (consistent E)
       (_collection (foldl (index_chunk E rel_path language) idx chunks)).
Proof.
  intros Hchunks. revert idx.
  induction Hchunks as [|c chunks (Hp & Hc & Hh) _ IH]; intros idx Hemb Hstore; [done |].
  simpl. apply IH; unfold index_chunk.
  - by apply add_chunk_keeps_fallback.
  - apply add_chunk_consistent; [..|done|done];
      change (default ∅ (Some ?m)) with m;
      by rewrite lookup_union_r, lookup_insert_ne.
Qed.

(** Both invariants hold in every store filled by [index_file]. *)
Lemma populated_consistent self :
  populated E self ->
  embedder_in_fallback (index self)
  /\ map_Forall (consistent E) (_collection (index self)).
Proof.
  induction 1 as [loaded|self path force _ [IHe IHs]].
  - split; [by intros m [=] | apply map_Forall_empty].
  - unfold index_file.
    destruct (check_changed self path force) as [self'|] eqn:Hcheck; [|done].
    assert (index self' = index self) as Hidx.
    { unfold check_changed in Hcheck. destruct force; [by simplify_eq |].
      case_bool_decide; by simplify_eq. }
    destruct (read_text path) as [content|]; cbn [snd index]; rewrite ?Hidx; [|done].
    apply index_chunks_consistent; [|done|done].
    pose proof (chunk_file_metadata path content "file_path") as H1.
    pose proof (chunk_file_metadata path content "chunk_id") as H2.
    pose proof (chunk_file_metadata path content "content_hash") as H3.
    rewrite Forall_forall in *. intros c Hc.
    assert (Hfree : forall key : string,
               key = "file_path" \/ key = "chunk_id" \/ key = "content_hash" ->
               key ∉ ["type"; "name"; "start_line"; "end_line";
                      "chunk_num"; "start_char"; "end_char"]).
    { intros key Hkey Hin.
      repeat (apply elem_of_cons in Hin as [->|Hin]; [by destruct Hkey as [?|[?|?]] |]).
      by apply elem_of_nil in Hin. }
    repeat split; [apply H1 | apply H2 | apply H3]; auto.
Qed.

End StoreInvariant.

(** X7: in a vector store filled by [index_file] alone, every document is
    stored under the id of its own [file_path] and [chunk_id] metadata,
    carries the hash of its own content as [content_hash], and has the
    hash-derived fallback embedding of its content: the index never uses
    the sentence-transformers model. *)
Theorem ingested_store_is_consistent
    (E : Externals) (self : ingestor.FileIngestor) :
  ingestor.populated E self ->
  map_Forall (index.consistent E) (index._collection (ingestor.index self)).
Proof. intros Hpop. by apply populated_consistent. Qed.

(** X7 on the store that holds [a.js]. *)
Lemma ingested_store_is_consistent_witness :
  map_Forall (index.consistent fixtures.world)
    (index._collection (ingestor.index fixtures.indexed_a)).
Proof.
  apply ingested_store_is_consistent.
  apply ingestor.populated_index_file, ingestor.populated_new.
Defined.

Section NeverRemoves.
Import index ingestor.
Variable E : Externals.

Lemma add_chunk_keeps_documents self file_path chunk_id content metadata doc_id :
  is_Some (_collection self !! doc_id) ->
  is_Some (_collection (add_chunk E self file_path chunk_id content metadata).2 !! doc_id).
Proof.
  intros Hsome.
  destruct (unchanged (_collection self !! chunk_doc_id file_path chunk_id)
              (_hash_content E content)) eqn:Hun.
  - unfold add_chunk, chroma.get. by rewrite Hun.
  - destruct (add_chunk_changed E self file_path chunk_id content metadata Hun)
      as (v & m & ->).
    cbn [_collection]. unfold chroma.upsert.
    apply lookup_insert_is_Some'. by right.
Qed.

Lemma index_chunks_keep_documents rel_path language chunks idx doc_id :
  is_Some (_collection idx !! doc_id) ->
  is_Some (_collection (foldl (index_chunk E rel_path language) idx chunks) !! doc_id).
Proof.
  revert idx. induction chunks as [|c chunks IH]; intros idx Hsome; [done |].
  simpl. apply IH. by apply add_chunk_keeps_documents.
Qed.

Lemma check_changed_index self path force self' :
  check_changed self path force = Some self' -> index self' = index self.
Proof.
  unfold check_changed. destruct force; [by intros [= <-] |].
  case_bool_decide; [done | by intros [= <-]].
Qed.

Lemma index_file_keeps_documents self path force doc_id :
  is_Some (_collection (index self) !! doc_id) ->
  is_Some (_collection (index (index_file E self path force).2) !! doc_id).
Proof.
  intros Hsome. unfold index_file.
  destruct (check_changed self path force) as [self'|] eqn:Hcheck; [|done].
  apply check_changed_index in Hcheck.
  destruct (read_text path) as [content|]; cbn [snd index]; rewrite ?Hcheck; [|done].
  by apply index_chunks_keep_documents.
Qed.

End NeverRemoves.

(** X8: [index_file] never removes a document from the vector store: every
    id stored before the call is stored after it.  A chunk whose function
    was deleted from its file therefore stays in the store when the file is
    indexed again. *)
Theorem index_file_never_removes_documents
    (E : Externals) (self : ingestor.FileIngestor) (path : ingestor.file)
    (force : bool) (doc_id : string) :
  is_Some (index._collection (ingestor.index self) !! doc_id) ->
  is_Some (index._collection
             (ingestor.index (ingestor.index_file E self path force).2) !! doc_id).
Proof. apply index_file_keeps_documents. Qed.

(** X8 on [a.js] after an edit: the id stored for it by the first pass is
    still stored after the second pass. *)
Lemma index_file_never_removes_documents_witness :
  is_Some (index._collection
             (ingestor.index
                (ingestor.index_file fixtures.world fixtures.indexed_a
                   fixtures.a_js_edited false).2) !! "a_js::full").
Proof.
  apply index_file_never_removes_documents.
  vm_compute. eexists. reflexivity.
Defined.

(** X9: on a vector store filled by [index_file] alone, [remove_file] of a
    path without ["::"] answers [True] and leaves every document in place:
    the whole-file id it deletes is the id of no chunk. *)
Theorem remove_file_leaves_ingested_chunks
    (E : Externals) (self : ingestor.FileIngestor) (file_path : string) :
  ingestor.populated E self ->
  pystr.has_double_colon file_path = false ->
  index.remove_file (ingestor.index self) file_path
  = (true,
     {| index._collection := index._collection (ingestor.index self);
        index._embedder := index._embedder (ingestor.index self);
        index.trace := index.trace (ingestor.index self)
                       ++ [index.Deleted (index.file_doc_id file_path)] |}).
Proof.
  intros Hpop Hpath. unfold index.remove_file, chroma.delete.
  rewrite delete_id; [done |].
  destruct (index._collection (ingestor.index self) !! index.file_doc_id file_path)
    as [d|] eqn:Hd; [|done].
  apply (populated_keys E self Hpop) in Hd.
  by rewrite file_doc_id_has_double_colon, Hpath in Hd.
Qed.

(** X9 on the store that holds [a.js]: removing [a.js] removes nothing. *)
Lemma remove_file_leaves_ingested_chunks_witness :
  index.remove_file (ingestor.index fixtures.indexed_a) "a.js"
  = (true,
     {| index._collection := index._collection (ingestor.index fixtures.indexed_a);
        index._embedder := index._embedder (ingestor.index fixtures.indexed_a);
        index.trace := index.trace (ingestor.index fixtures.indexed_a)
                       ++ [index.Deleted (index.file_doc_id "a.js")] |}).
Proof.
  apply (remove_file_leaves_ingested_chunks fixtures.world).
  - apply ingestor.populated_index_file, ingestor.populated_new.
  - reflexivity.
Defined.

(** ** ingestor.py: full passes *)

Section FullPass.
Import index ingestor.
Variable E : Externals.

Lemma index_all_step_self force cb total acc i path :
  p_self (index_all_step E force cb total acc i path)
  = (index_file E (p_self acc) path force).2.
Proof.
  unfold index_all_step.
  destruct (index_file E (p_self acc) path force) as [chunks self'].
  by destruct (0 <? chunks).
Qed.

(** [index_file] writes the hash cache at the file's own path only. *)
Lemma index_file_cache_frame self path force key :
  key <> rel_path path ->
  _hash_cache (index_file E self path force).2 !! key = _hash_cache self !! key.
Proof.
  intros Hkey. unfold index_file, check_changed.
  destruct force.
  - by destruct (read_text path).
  - case_bool_decide; [done |].
    destruct (read_text path); cbn [snd _hash_cache]; by rewrite lookup_insert_ne.
Qed.

(** A cache hit: nothing happens. *)
Lemma index_file_hit self path :
  _hash_cache self !! rel_path path = Some (file_hash path) ->
  index_file E self path false = (0, self).
Proof.
  intros Hhit. unfold index_file, check_changed. by rewrite bool_decide_eq_true_2.
Qed.

(** After a pass that is not forced, the cache holds the hash of every file
    of the pass, and is as before at every other path. *)
Lemma index_all_loop_cache cb total files :
  forall acc i,
    NoDup (rel_path <$> files) ->
    let final := index_all_loop E false cb total acc i files in
    Forall (fun f => _hash_cache (p_self final) !! rel_path f = Some (file_hash f)) files
    /\ (forall key, key ∉ rel_path <$> files ->
          _hash_cache (p_self final) !! key = _hash_cache (p_self acc) !! key).
Proof.
  induction files as [|f files IH]; intros acc i Hnodup; [by split |].
  rewrite fmap_cons in Hnodup. apply NoDup_cons in Hnodup as [Hf Hnodup].
  destruct (IH (index_all_step E false cb total acc i f) (S i) Hnodup) as [Hall Hframe].
  cbn zeta in *. simpl. split.
  - constructor; [|done].
    rewrite Hframe, index_all_step_self by done. apply index_file_syncs_cache.
  - intros key Hkey. apply not_elem_of_cons in Hkey as [Hne Hkey].
    rewrite Hframe, index_all_step_self by done. by apply index_file_cache_frame.
Qed.

(** A pass in which every file hits the cache changes neither the ingestor
    nor the counters. *)
Lemma index_all_loop_hits cb total files :
  forall acc i,
    Forall (fun f => _hash_cache (p_self acc) !! rel_path f = Some (file_hash f)) files ->
    let final := index_all_loop E false cb total acc i files in
    p_self final = p_self acc
    /\ p_files_indexed final = p_files_indexed acc
    /\ p_chunks_total final = p_chunks_total acc.
Proof.
  induction files as [|f files IH]; intros acc i Hhits; [done |].
  apply Forall_cons in Hhits as [Hf Hhits].
  assert (Hstep : p_self (index_all_step E false cb total acc i f) = p_self acc
                  /\ p_files_indexed (index_all_step E false cb total acc i f)
                     = p_files_indexed acc
                  /\ p_chunks_total (index_all_step E false cb total acc i f)
                     = p_chunks_total acc).
  { unfold index_all_step. by rewrite index_file_hit. }
  destruct Hstep as (Hs & Hi & Hc).
  destruct (IH (index_all_step E false cb total acc i f) (S i)) as (Hs' & Hi' & Hc').
  { by rewrite Hs. }
  cbn zeta in *. simpl. by rewrite Hs', Hi', Hc'.
Qed.

(** The counters of a pass. *)
Lemma index_all_loop_counts force cb total files :
  forall acc i,
    let final := index_all_loop E force cb total acc i files in
    p_files_indexed acc <= p_files_indexed final <= p_files_indexed acc + length files
    /\ (p_files_indexed final - p_files_indexed acc
        <= p_chunks_total final - p_chunks_total acc)
    /\ p_chunks_total acc <= p_chunks_total final.
Proof.
  induction files as [|f files IH]; intros acc i; [simpl; lia |].
  specialize (IH (index_all_step E force cb total acc i f) (S i)).
  cbn zeta in *. simpl.
  assert (Hstep :
    p_files_indexed acc <= p_files_indexed (index_all_step E force cb total acc i f)
      <= p_files_indexed acc + 1
    /\ (p_files_indexed (index_all_step E force cb total acc i f) - p_files_indexed acc
        <= p_chunks_total (index_all_step E force cb total acc i f) - p_chunks_total acc)
    /\ p_chunks_total acc <= p_chunks_total (index_all_step E force cb total acc i f)).
  { unfold index_all_step.
    destruct (index_file E (p_self acc) f force) as [chunks self'].
    destruct (0 <? chunks) eqn:Hpos; cbn [p_files_indexed p_chunks_total]; [|lia].
    apply Nat.ltb_lt in Hpos. lia. }
  lia.
Qed.

(** In a forced pass every readable file is counted. *)
Lemma index_all_loop_forced cb total files :
  forall acc i,
    p_files_indexed (index_all_loop E true cb total acc i files)
    = p_files_indexed acc
      + length (List.filter (fun f => bool_decide (is_Some (read_text f))) files).
Proof.
  induction files as [|f files IH]; intros acc i; [simpl; lia |].
  simpl. rewrite IH.
  assert (p_files_indexed (index_all_step E true cb total acc i f)
          = p_files_indexed acc
            + (if bool_decide (is_Some (read_text f)) then 1 else 0)) as ->.
  { unfold index_all_step, index_file, check_changed.
    destruct (read_text f) as [content|] eqn:Hread.
    - pose proof (chunk_file_nonempty E f content) as Hne.
      destruct (_chunk_file E f content) as [|c chunks]; [done |].
      rewrite bool_decide_eq_true_2 by done. reflexivity.
    - rewrite bool_decide_eq_false_2 by (by intros [? ?]).
      cbn [Nat.ltb Nat.leb p_files_indexed]. lia. }
  destruct (bool_decide (is_Some (read_text f))); simpl; lia.
Qed.

End FullPass.

(** X10: running [index_all] a second time over the same files, none of
    them changed and neither pass forced, scans all of them, indexes none,
    and leaves the ingestor, the vector store and the saved hash cache as
    the first pass left them.  (The files of a pass have pairwise distinct
    relative paths.) *)
Theorem index_all_twice_indexes_nothing
    (E : Externals) (self : ingestor.FileIngestor) (files : list ingestor.file)
    (callback1 callback2 : bool) :
  NoDup (ingestor.rel_path <$> files) ->
  let once := ingestor.index_all E self files false callback1 in
  let again := ingestor.index_all E (ingestor.ia_self once) files false callback2 in
  ingestor.ia_stats again
  = {| ingestor.files_scanned := length files;
       ingestor.files_indexed := 0;
       ingestor.chunks_total := 0 |}
  /\ ingestor.ia_self again = ingestor.ia_self once
  /\ ingestor.ia_saved again = ingestor.ia_saved once.
Proof.
  intros Hnodup once again.
  destruct (index_all_loop_cache E callback1 (length files) files
              {| ingestor.p_self := self; ingestor.p_files_indexed := 0;
                 ingestor.p_chunks_total := 0; ingestor.p_progress := [] |}
              0 Hnodup) as [Hsynced _].
  destruct (index_all_loop_hits E callback2 (length files) files
              {| ingestor.p_self := ingestor.ia_self once;
                 ingestor.p_files_indexed := 0;
                 ingestor.p_chunks_total := 0; ingestor.p_progress := [] |}
              0 Hsynced) as (Hself & Hindexed & Hchunks).
  unfold again, ingestor.index_all.
  cbn [ingestor.ia_stats ingestor.ia_self ingestor.ia_saved].
  rewrite Hself, Hindexed, Hchunks. done.
Qed.

(** X10 on a fresh ingestor and the two files [a.js] and [b.py]. *)
Lemma index_all_twice_indexes_nothing_witness :
  let once :=
    ingestor.index_all fixtures.world fixtures.fresh
      [fixtures.a_js; fixtures.b_py] false false in
  let again :=
    ingestor.index_all fixtures.world (ingestor.ia_self once)
      [fixtures.a_js; fixtures.b_py] false true in
  ingestor.ia_stats again
  = {| ingestor.files_scanned := length [fixtures.a_js; fixtures.b_py];
       ingestor.files_indexed := 0;
       ingestor.chunks_total := 0 |}
  /\ ingestor.ia_self again = ingestor.ia_self once
  /\ ingestor.ia_saved again = ingestor.ia_saved once.
Proof.
  apply (index_all_twice_indexes_nothing fixtures.world fixtures.fresh
           [fixtures.a_js; fixtures.b_py] false true).
  apply NoDup_cons. split; [|apply NoDup_singleton].
  intros Hin%list_elem_of_singleton. discriminate Hin.
Defined.

(** X11: the statistics [index_all] returns are coherent: it scans as many
    files as it was given, indexes at most that many, and counts at least
    one chunk for every file it indexes. *)
Theorem index_all_stats_are_coherent
    (E : Externals) (self : ingestor.FileIngestor) (files : list ingestor.file)
    (force callback : bool) :
  let stats := ingestor.ia_stats (ingestor.index_all E self files force callback) in
  ingestor.files_scanned stats = length files
  /\ ingestor.files_indexed stats <= ingestor.files_scanned stats
  /\ ingestor.files_indexed stats <= ingestor.chunks_total stats.
Proof.
  intros stats. unfold stats, ingestor.index_all.
  cbn [ingestor.ia_stats ingestor.files_scanned ingestor.files_indexed
         ingestor.chunks_total].
  pose proof (index_all_loop_counts E force callback (length files) files
                {| ingestor.p_self := self; ingestor.p_files_indexed := 0;
                   ingestor.p_chunks_total := 0; ingestor.p_progress := [] |} 0) as H.
  cbn zeta in H. cbn [ingestor.p_files_indexed ingestor.p_chunks_total] in H. lia.
Qed.

(** X12: a forced [index_all] counts as indexed exactly the files it could
    read, whatever the hash cache and the store held before. *)
Theorem forced_index_all_counts_readable_files
    (E : Externals) (self : ingestor.FileIngestor) (files : list ingestor.file)
    (callback : bool) :
  ingestor.files_indexed
    (ingestor.ia_stats (ingestor.index_all E self files true callback))
  = length (List.filter (fun f => bool_decide (is_Some (ingestor.read_text f))) files).
Proof.
  unfold ingestor.index_all. cbn [ingestor.ia_stats ingestor.files_indexed].
  by rewrite index_all_loop_forced.
Qed.

(** ** ingestor.py: remove_deleted_files *)

Section RemoveDeleted.
Import index ingestor.

Lemma remove_deleted_loop exists_on_disk paths :
  forall removed files_to_remove idx,
    let r := foldl (remove_deleted_step exists_on_disk)
               (removed, files_to_remove, idx) paths in
    r.1.1 = removed + length (List.filter (fun p => negb (exists_on_disk p)) paths)
    /\ r.1.2 = (files_to_remove ++ List.filter (fun p => negb (exists_on_disk p)) paths)%list.
Proof.
  induction paths as [|p paths IH]; intros removed files_to_remove idx.
  - simpl. by rewrite Nat.add_0_r, app_nil_r.
  - cbn zeta. cbn [foldl List.filter]. unfold remove_deleted_step at 2 4.
    destruct (exists_on_disk p); cbn [negb].
    + apply IH.
    + destruct (IH (removed + 1) (files_to_remove ++ [p])%list
                  (remove_file idx p).2) as [-> ->].
      cbn [length]. rewrite <- app_assoc. split; [lia | done].
Qed.

(** Deleting whole-file ids that are not stored leaves the collection. *)
Lemma remove_deleted_loop_collection exists_on_disk paths :
  forall removed files_to_remove idx,
    Forall (fun p => _collection idx !! file_doc_id p = None) paths ->
    _collection (foldl (remove_deleted_step exists_on_disk)
                   (removed, files_to_remove, idx) paths).2
    = _collection idx.
Proof.
  induction paths as [|p paths IH]; intros removed files_to_remove idx Habsent; [done |].
  apply Forall_cons in Habsent as [Hp Habsent].
  cbn [foldl]. unfold remove_deleted_step at 2.
  destruct (exists_on_disk p); [by apply IH |].
  assert (_collection (remove_file idx p).2 = _collection idx) as Hsame.
  { unfold remove_file, chroma.delete. cbn [snd _collection]. by apply delete_id. }
  rewrite IH; [done |]. by rewrite Hsame.
Qed.

Lemma foldl_delete_lookup (m : gmap string string) paths key :
  foldl (fun cache path => delete path cache) m paths !! key
  = if decide (key ∈ paths) then None else m !! key.
Proof.
  revert m. induction paths as [|p paths IH]; intros m.
  - case_decide as Hin; [by apply elem_of_nil in Hin | done].
  - cbn [foldl]. rewrite IH.
    destruct (decide (key ∈ paths)) as [Hin|Hnot],
             (decide (key ∈ p :: paths)) as [Hin'|Hnot']; [done | | |].
    + exfalso. apply Hnot'. by right.
    + apply elem_of_cons in Hin' as [->|?]; [|done]. apply lookup_delete_eq.
    + apply lookup_delete_ne. intros ->. apply Hnot'. by left.
Qed.

Lemma foldl_delete_size (m : gmap string string) paths :
  NoDup paths -> Forall (fun p => is_Some (m !! p)) paths ->
  size (foldl (fun cache path => delete path cache) m paths) + length paths = size m.
Proof.
  revert m. induction paths as [|p paths IH]; intros m Hnodup Hall; simpl; [lia |].
  apply NoDup_cons in Hnodup as [Hp Hnodup].
  apply Forall_cons in Hall as [[v Hv] Hall].
  assert (Forall (fun q => is_Some (delete p m !! q)) paths) as Hall'.
  { rewrite Forall_forall in *. intros q Hq.
    rewrite lookup_delete_ne; [by apply Hall |]. by intros ->. }
  specialize (IH (delete p m) Hnodup Hall').
  pose proof (map_size_delete_Some p m (mk_is_Some _ _ Hv)) as Hdel.
  assert (size m <> 0) as Hpos.
  { intros Hzero%map_size_empty_inv. by rewrite Hzero, lookup_empty in Hv. }
  lia.
Qed.

Lemma gone_paths (cache : gmap string string) exists_on_disk key :
  key ∈ List.filter (fun p => negb (exists_on_disk p)) (map_to_list cache).*1
  <-> is_Some (cache !! key) /\ exists_on_disk key = false.
Proof.
  rewrite list_elem_of_In, filter_In, <- list_elem_of_In, negb_true_iff.
  rewrite list_elem_of_fmap. split.
  - intros [([k v] & -> & Hkv%elem_of_map_to_list) Hgone]. eauto.
  - intros [[v Hv] Hgone]. split; [|done].
    exists (key, v). split; [done |]. by apply elem_of_map_to_list.
Qed.

End RemoveDeleted.

(** X13: [remove_deleted_files] keeps in the hash cache exactly the entries
    whose file still exists, with their hashes; the number it returns is
    the number of entries it dropped; and it rewrites the cache file only
    if it dropped one. *)
Theorem remove_deleted_files_prunes_cache
    (self : ingestor.FileIngestor) (exists_on_disk : string -> bool) :
  let r := ingestor.remove_deleted_files self exists_on_disk in
  ingestor._hash_cache (ingestor.rd_self r)
  = filter (fun kv : string * string => exists_on_disk kv.1 = true)
      (ingestor._hash_cache self)
  /\ ingestor.rd_removed r + size (ingestor._hash_cache (ingestor.rd_self r))
     = size (ingestor._hash_cache self)
  /\ (ingestor.rd_saved r = None <-> ingestor.rd_removed r = 0).
Proof.
  intros r. unfold r, ingestor.remove_deleted_files.
  pose proof (remove_deleted_loop exists_on_disk
                (map_to_list (ingestor._hash_cache self)).*1 0 []
                (ingestor.index self)) as Hloop.
  cbn zeta in Hloop.
  destruct (foldl _ _ _) as [[removed files_to_remove] idx].
  cbn [fst snd] in Hloop. destruct Hloop as [-> ->].
  cbn [ingestor.rd_self ingestor.rd_removed ingestor.rd_saved ingestor._hash_cache].
  rewrite app_nil_l, Nat.add_0_l.
  set (gone := List.filter (fun p => negb (exists_on_disk p))
                 (map_to_list (ingestor._hash_cache self)).*1).
  split; [|split].
  - apply map_eq. intros key. rewrite foldl_delete_lookup.
    destruct (decide (key ∈ gone)) as [Hgone|Hkept].
    + apply gone_paths in Hgone as [_ Hgone]. symmetry.
      apply map_lookup_filter_None_2. right. intros v _. cbn. by rewrite Hgone.
    + destruct (ingestor._hash_cache self !! key) as [v|] eqn:Hv; symmetry.
      * apply map_lookup_filter_Some_2; [done |]. cbn.
        destruct (exists_on_disk key) eqn:Hex; [done |].
        exfalso. apply Hkept, gone_paths. eauto.
      * apply map_lookup_filter_None_2. by left.
  - rewrite Nat.add_comm. apply foldl_delete_size.
    + unfold gone. apply NoDup_ListNoDup, List.NoDup_filter, NoDup_ListNoDup, NoDup_fst_map_to_list.
    + apply Forall_forall. intros key Hkey. by apply gone_paths in Hkey as [? _].
  - destruct (length gone) as [|n]; cbn; split; done.
Qed.

(** X14: on a vector store filled by [index_file] alone, with no ["::"] in
    the cached paths, [remove_deleted_files] leaves every document in the
    store: the chunks of a deleted file stay searchable, only its cache
    entry goes. *)
Theorem remove_deleted_files_leaves_chunks
    (E : Externals) (self : ingestor.FileIngestor) (exists_on_disk : string -> bool) :
  ingestor.populated E self ->
  map_Forall (fun path _ => pystr.has_double_colon path = false)
    (ingestor._hash_cache self) ->
  index._collection
    (ingestor.index (ingestor.rd_self (ingestor.remove_deleted_files self exists_on_disk)))
  = index._collection (ingestor.index self).
Proof.
  intros Hpop Hpaths. unfold ingestor.remove_deleted_files.
  pose proof (remove_deleted_loop_collection exists_on_disk
                (map_to_list (ingestor._hash_cache self)).*1 0 []
                (ingestor.index self)) as Hloop.
  destruct (foldl _ _ _) as [[removed files_to_remove] idx].
  cbn [ingestor.rd_self ingestor.index]. cbn [snd] in Hloop. apply Hloop.
  apply Forall_forall. intros path Hpath.
  apply list_elem_of_fmap in Hpath as ([k v] & -> & Hkv%elem_of_map_to_list).
  specialize (Hpaths k v Hkv). cbn in Hpaths. cbn [fst].
  destruct (index._collection (ingestor.index self) !! index.file_doc_id k)
    as [d|] eqn:Hd; [|done].
  apply (populated_keys E self Hpop) in Hd.
  by rewrite file_doc_id_has_double_colon, Hpaths in Hd.
Qed.

(** X14 on the store that holds [a.js], after [a.js] was deleted from disk:
    one cache entry is dropped and the store keeps its document. *)
Lemma remove_deleted_files_leaves_chunks_witness :
  ingestor.rd_removed (ingestor.remove_deleted_files fixtures.indexed_a (fun _ => false)) = 1
  /\ index._collection
       (ingestor.index
          (ingestor.rd_self
             (ingestor.remove_deleted_files fixtures.indexed_a (fun _ => false))))
     = index._collection (ingestor.index fixtures.indexed_a).
Proof.
  split; [vm_compute; reflexivity |].
  apply (remove_deleted_files_leaves_chunks fixtures.world).
  - apply ingestor.populated_index_file, ingestor.populated_new.
  - assert (ingestor._hash_cache fixtures.indexed_a = {["a.js" := "h1"]}) as ->
      by (vm_compute; reflexivity).
    apply map_Forall_singleton. reflexivity.
Defined.

(** ** index.py: the result of get_related_files *)

Section RelatedResult.
Import index.
Variable E : Externals.










(** Searching reads the collection and does not write it. *)
Lemma search_collection self query n_results file_filter :
  _collection (search E self query n_results file_filter).2 = _collection self.
Proof.
  unfold search.
  pose proof (embedder_embed_collection E self query) as Hcoll.
  by destruct (embedder_embed E self query) as [v self'].
Qed.

Lemma related_steps_collection changed_files n_results files acc :
  _collection (foldl (related_step E changed_files n_results) acc files).2
  = _collection acc.2.
Proof.
  revert acc. induction files as [|f files IH]; intros acc; [done |].
  simpl. rewrite IH. destruct acc as [related self]. unfold related_step.
  destruct (chroma.get _ _) as [d|]; [|done].
  destruct (doc_content d) as [|c content]; [done |].
  pose proof (search_collection self
                (pystr.slice 0 2000 (String c content))
                (n_results + length changed_files) (Some changed_files)) as Hs.
  by destruct (search E self _ _ _) as [matches self'].
Qed.






End RelatedResult.


(** X16: [search] and [get_related_files] only read the vector store: the
    collection after the call is the collection before it. *)
Theorem searching_never_writes_the_store
    (E : Externals) (self : index.CodeIndex) (query : string)
    (changed_files : list string) (n_results : nat)
    (file_filter : option (list string)) :
  index._collection (index.search E self query n_results file_filter).2
  = index._collection self
  /\ index._collection (index.get_related_files E self changed_files n_results).2
     = index._collection self.
Proof.
  split; [apply search_collection |].
  unfold index.get_related_files.
  pose proof (related_steps_collection E changed_files n_results changed_files ([], self))
    as Hcoll.
  by destruct (foldl _ _ _) as [related self'].
Qed.



(** ** embeddings.py: entering and staying out of fallback mode *)

Section FallbackEntry.
Import embeddings.
Variable hash_embedding : string -> nat -> vector.


Lemma model_with_loader B self :
  (forall name, is_Some (st_load B name)) -> _fallback self = false ->
  is_Some (model B self).1 /\ _fallback (model B self).2 = false.
Proof.
  intros Hload Hfb. unfold model, _get_model. rewrite Hfb.
  destruct (_model self); [done |].
  by destruct (Hload (model_name self)) as [st ->].
Qed.

End FallbackEntry.





(** X20: fallback mode is entered through a failure only: with a backend
    that loads every model and encodes every text and batch, no call moves
    a model out of normal mode, not even [dimension] when the backend
    cannot tell its dimension. *)
Theorem working_backend_never_enters_fallback
    (hash_embedding : string -> nat -> vector) (B : Backend)
    (c : embeddings.call) (self : embeddings.EmbeddingModel) :
  (forall name, is_Some (st_load B name)) ->
  (forall st text, is_Some (st_encode B st text)) ->
  (forall st texts, is_Some (st_encode_batch B st texts)) ->
  embeddings.is_fallback self = false ->
  embeddings.is_fallback (embeddings.do_call hash_embedding B c self).2 = false.
Proof.
  unfold embeddings.is_fallback. intros Hload Hencode Hbatch Hfb.
  destruct (model_with_loader B self Hload Hfb) as [[st Hst] Hfb'].
  destruct c as [text|texts| |]; cbn [embeddings.do_call prod_map snd].
  - unfold embeddings.embed. rewrite Hfb.
    destruct (embeddings.model B self) as [m self']. cbn [fst snd] in *. subst m.
    cbn. by destruct (Hencode st text) as [v ->].
  - unfold embeddings.embed_batch. destruct texts as [|t texts]; [done |].
    rewrite Hfb.
    destruct (embeddings.model B self) as [m self']. cbn [fst snd] in *. subst m.
    cbn. by destruct (Hbatch st (t :: texts)) as [v ->].
  - unfold embeddings.dimension. rewrite Hfb.
    destruct (embeddings.model B self) as [m self']. cbn [fst snd] in *. subst m.
    cbn. by destruct (st_dimension B st).
  - done.
Qed.

(** X20 on a default model and a working backend. *)
Lemma working_backend_never_enters_fallback_witness :
  embeddings.is_fallback
    (embeddings.do_call (fun _ _ => []) fixtures.working_backend
       (embeddings.CallEmbed "x") fixtures.default_model).2 = false.
Proof.
  apply working_backend_never_enters_fallback; try reflexivity.
  - intros name. by eexists.
  - intros st text. by eexists.
  - intros st texts. by eexists.
Defined.

(** ** review.py: risk levels *)

(** X21: the number of reasons [_calculate_risk_level] returns is the
    number of these three conditions that hold: more than 500 changed
    lines, more than 10 changed files, at least one related file. *)
Theorem risk_reasons_count
    (changed_files : list review.changed_file) (related_files : list index.SearchResult) :
  length (review._calculate_risk_level changed_files related_files).2
  = (if 500 <? sum_list ((fun f => default 0 (review.additions f)
                                   + default 0 (review.deletions f)) <$> changed_files)
     then 1 else 0)
    + (if 10 <? length changed_files then 1 else 0)
    + (if 0 <? length related_files then 1 else 0).
Proof.
  pose proof (reasons_count changed_files related_files) as Hcount.
  cbn zeta in Hcount. rewrite <- Hcount.
  unfold review._calculate_risk_level.
  destruct (review.score_and_reasons changed_files related_files) as [score reasons].
  by destruct (4 <=? score), (2 <=? score).
Qed.

(** X22: the level [High] is never returned without a reason, and the level
    [Low] is never returned with more than one. *)
Theorem risk_level_and_reasons
    (changed_files : list review.changed_file) (related_files : list index.SearchResult) :
  ((review._calculate_risk_level changed_files related_files).1 = "High" ->
   (review._calculate_risk_level changed_files related_files).2 <> [])
  /\ ((review._calculate_risk_level changed_files related_files).1 = "Low" ->
      length (review._calculate_risk_level changed_files related_files).2 <= 1).
Proof.
  unfold review._calculate_risk_level, review.score_and_reasons.
  repeat match goal with
         | |- context [if ?b <? ?n then _ else _] => destruct (b <? n)
         end;
    cbn; (split; [intros ?; done | intros ?; (done || lia)]).
Qed.

(** X22 on the changes of scenario D: 600 lines in 12 files with 4 related
    files are [High] risk with reasons. *)
Lemma risk_level_and_reasons_witness :
  (review._calculate_risk_level fixtures.twelve_large_files fixtures.four_related).1
  = "High"
  /\ (review._calculate_risk_level fixtures.twelve_large_files fixtures.four_related).2
     <> [].
Proof.
  split; [vm_compute; reflexivity |].
  apply (proj1 (risk_level_and_reasons fixtures.twelve_large_files fixtures.four_related)).
  vm_compute. reflexivity.
Defined.

(** ** ingestor.py: scan_files *)

(** X23: [scan_files] yields, in listing order, exactly the listed paths
    that are regular files with a supported suffix and a known size of at
    most [MAX_FILE_SIZE] bytes (a file of exactly that size is kept), and
    that have no component in [SKIP_DIRS]. *)
Theorem scan_files_yields_the_indexable_files
    (listing : list ingestor.dir_entry) (path : ingestor.dir_entry) :
  sublist (ingestor.scan_files listing) listing
  /\ (path ∈ ingestor.scan_files listing
      <-> path ∈ listing
          /\ ingestor.is_file path = true
          /\ ingestor.entry_suffix path ∈ ingestor.SUPPORTED_EXTENSIONS.*1
          /\ (exists size, ingestor.st_size path = Some size
                           /\ (size <= ingestor.MAX_FILE_SIZE)%N)
          /\ (forall skip, skip ∈ ingestor.SKIP_DIRS -> skip ∉ ingestor.parts path)).
Proof.
  split.
  - unfold ingestor.scan_files.
    induction listing as [|p listing IH]; simpl; [done |].
    destruct (_ && _); [by apply sublist_skip | by apply sublist_cons].
  - unfold ingestor.scan_files.
    rewrite list_elem_of_In, filter_In, <- list_elem_of_In.
    rewrite !andb_true_iff, negb_true_iff.
    unfold ingestor.in_skipped_dir, ingestor._should_index.
    split.
    + intros (Hin & Hskip & Hfile & Hindex). split; [done |]. split; [done |].
      case_bool_decide as Hsuffix; [|done]. split; [done |].
      destruct (ingestor.st_size path) as [size|]; [|done].
      destruct (N.ltb_spec ingestor.MAX_FILE_SIZE size); [done |].
      split; [eauto |].
      intros skip Hs Hpart.
      assert (existsb (fun skip => bool_decide (skip ∈ ingestor.parts path))
                ingestor.SKIP_DIRS = true) as Hex; [|congruence].
      apply existsb_exists. exists skip.
      split; [by apply list_elem_of_In | by apply bool_decide_eq_true_2].
    + intros (Hin & Hfile & Hsuffix & (size & Hsize & Hle) & Hskip).
      split; [done |]. split; [|split; [done |]].
      * destruct (existsb _ _) eqn:Hex; [|done].
        apply existsb_exists in Hex as (skip & Hs%list_elem_of_In & Hpart).
        apply bool_decide_eq_true_1 in Hpart. by destruct (Hskip skip Hs).
      * rewrite bool_decide_eq_true_2, Hsize by done.
        by destruct (N.ltb_spec ingestor.MAX_FILE_SIZE size); [lia |].
Qed.

(** X24: the test against [SKIP_DIRS] looks at every component of a path,
    those above the repository root included: if all listed paths share a
    component named like a skipped directory, [scan_files] yields
    nothing. *)
Theorem scan_files_skips_everything_under_a_skipped_name
    (listing : list ingestor.dir_entry) (skip : string) :
  skip ∈ ingestor.SKIP_DIRS ->
  Forall (fun path => skip ∈ ingestor.parts path) listing ->
  ingestor.scan_files listing = [].
Proof.
  intros Hskip Hall. unfold ingestor.scan_files.
  induction Hall as [|p listing Hp _ IH]; [done |].
  simpl. rewrite IH.
  assert (ingestor.in_skipped_dir p = true) as ->; [|done].
  apply existsb_exists. exists skip.
  split; [by apply list_elem_of_In | by apply bool_decide_eq_true_2].
Qed.

(** X24 on a repository checked out under [/home/dev/build/repo]. *)
Lemma scan_files_skips_everything_witness :
  ingestor.scan_files [fixtures.main_py_under_build] = [].
Proof.
  apply (scan_files_skips_everything_under_a_skipped_name _ "build").
  - vm_compute. repeat (first [apply list_elem_of_here | apply list_elem_of_further]).
  - apply Forall_singleton. vm_compute.
    repeat (first [apply list_elem_of_here | apply list_elem_of_further]).
Defined.

(** ** index.py: add_file and remove_file *)

(** X25: [remove_file] undoes [add_file]: adding a file whose whole-file id
    is not stored and then removing the file leaves the collection as it
    was before. *)
Theorem remove_file_undoes_add_file
    (E : Externals) (self : index.CodeIndex) (file_path content : string)
    (metadata : option (gmap string mvalue)) :
  index._collection self !! index.file_doc_id file_path = None ->
  index._collection
    (index.remove_file (index.add_file E self file_path content metadata).2 file_path).2
  = index._collection self.
Proof.
  intros Habsent. unfold index.add_file, chroma.get, index.unchanged.
  rewrite Habsent.
  pose proof (embedder_embed_collection E self content) as Hcoll.
  destruct (index.embedder_embed E self content) as [v self'].
  cbn [snd] in *. unfold index.remove_file, chroma.delete, index.collection_upsert,
    chroma.upsert.
  cbn [snd index._collection]. rewrite Hcoll. by apply delete_insert_id.
Qed.

(** X25 on an empty index. *)
Lemma remove_file_undoes_add_file_witness :
  index._collection
    (index.remove_file
       (index.add_file fixtures.world (index.__init__ ∅) "a.js" "x" None).2 "a.js").2
  = index._collection (index.__init__ ∅).
Proof. apply remove_file_undoes_add_file. reflexivity. Defined.

(** ** core/config.py: the branch stack *)

Section Stack.
Import config.


Lemma find_item_app items item n :
  find_item (items ++ [item]) n
  = match find_item items n with
    | Some found => Some found
    | None => if bool_decide (name item = n) then Some item else None
    end.
Proof.
  induction items as [|i items IH]; simpl; [done |].
  destruct (bool_decide (name i = n)); [done | exact IH].
Qed.

End Stack.


(** X27: [add_item] appends and never replaces: afterwards [get_item]
    answers as before for every other name, and for the added name it
    answers the item that was already there under that name, if there was
    one, and the new item otherwise. *)
Theorem add_item_never_replaces
    (self : config.StackState) (n : string) (parent : option string)
    (now n' : string) :
  config.get_item (config.add_item self n parent now).2 n'
  = if decide (n' = n)
    then Some (default (config.add_item self n parent now).1 (config.get_item self n))
    else config.get_item self n'.
Proof.
  unfold config.get_item, config.add_item. cbn [fst snd config.items].
  rewrite find_item_app. cbn [config.name].
  destruct (decide (n' = n)) as [->|Hne].
  - rewrite bool_decide_eq_true_2 by done. by destruct (config.find_item _ n).
  - rewrite bool_decide_eq_false_2 by done. by destruct (config.find_item _ n').
Qed.

(** ** ingestor.py: chunks that share a document id *)

Section LastWrite.
Import index ingestor.
Variable E : Externals.

(** [add_chunk] writes under its own id only. *)
Lemma add_chunk_frame self file_path chunk_id content metadata doc_id :
  doc_id <> chunk_doc_id file_path chunk_id ->
  _collection (add_chunk E self file_path chunk_id content metadata).2 !! doc_id
  = _collection self !! doc_id.
Proof.
  intros Hne.
  destruct (unchanged (_collection self !! chunk_doc_id file_path chunk_id)
              (_hash_content E content)) eqn:Hun.
  - unfold add_chunk, chroma.get. by rewrite Hun.
  - destruct (add_chunk_changed E self file_path chunk_id content metadata Hun)
      as (v & m & ->).
    cbn [_collection]. unfold chroma.upsert. by rewrite lookup_insert_ne.
Qed.

(** After the loop over the chunks, a document id holds the hash of the
    last chunk that was written under it. *)
Lemma index_chunks_last rel_path language doc_id chunks :
  forall idx c,
    Forall (fun c => c_metadata c !! "content_hash" = None) chunks ->
    last (List.filter
            (fun c => bool_decide (chunk_doc_id rel_path (c_id c) = doc_id)) chunks)
    = Some c ->
    exists d,
      _collection (foldl (index_chunk E rel_path language) idx chunks) !! doc_id = Some d
      /\ doc_metadata d !! "content_hash" = Some (MStr (_hash_content E (c_content c))).
Proof.
  induction chunks as [|x chunks IH] using rev_ind; intros idx c Hkeys Hlast; [done |].
  apply Forall_app in Hkeys as [Hkeys Hx]. rewrite Forall_singleton in Hx.
  rewrite foldl_app. cbn [foldl].
  rewrite List.filter_app in Hlast. cbn [List.filter] in Hlast.
  case_bool_decide as Hid.
  - rewrite last_snoc in Hlast. injection Hlast as <-. subst doc_id.
    unfold index_chunk. apply add_chunk_stores_hash.
    change (default ∅ (Some ?m)) with m.
    by rewrite lookup_union_r, lookup_insert_ne.
  - rewrite app_nil_r in Hlast.
    destruct (IH idx c Hkeys Hlast) as (d & Hd & Hhash).
    exists d. split; [|done].
    unfold index_chunk. rewrite add_chunk_frame; [done | congruence].
Qed.

End LastWrite.

(** X28: when [index_file] indexes a file, the last write wins per
    document id: the document stored under an id afterwards carries the
    content hash of the last chunk of the file that maps to that id.  Two
    definitions with the same name in one Python file therefore leave one
    document, the later definition's. *)
Theorem index_file_last_chunk_wins
    (E : Externals) (self : ingestor.FileIngestor) (path : ingestor.file)
    (force : bool) (content doc_id : string) (c : ingestor.chunk) :
  ingestor.read_text path = Some content ->
  (ingestor.index_file E self path force).1 <> 0 ->
  last (List.filter
          (fun c => bool_decide
                      (index.chunk_doc_id (ingestor.rel_path path) (ingestor.c_id c)
                       = doc_id))
          (ingestor._chunk_file E path content)) = Some c ->
  exists d : document,
    index._collection (ingestor.index (ingestor.index_file E self path force).2)
      !! doc_id = Some d
    /\ doc_metadata d !! "content_hash"
       = Some (MStr (index._hash_content E (ingestor.c_content c))).
Proof.
  intros Hread Hindexed Hlast.
  assert (exists self', ingestor.check_changed self path force = Some self')
    as [self' Hcheck].
  { destruct (ingestor.check_changed self path force) eqn:Hc; [eauto |].
    exfalso. apply Hindexed. unfold ingestor.index_file. by rewrite Hc. }
  unfold ingestor.index_file. rewrite Hcheck, Hread. cbn [snd ingestor.index].
  apply index_chunks_last; [|done].
  apply chunk_file_metadata.
  intros Hin.
  repeat (apply elem_of_cons in Hin as [Hin|Hin]; [discriminate Hin |]).
  by apply elem_of_nil in Hin.
Qed.

(** X28 on a Python file that defines [f] twice: the stored document
    [c_py::f] carries the hash of the second definition. *)
Lemma index_file_last_chunk_wins_witness :
  exists d : document,
    index._collection
      (ingestor.index
         (ingestor.index_file fixtures.world_two_defs fixtures.fresh fixtures.c_py true).2)
      !! "c_py::f" = Some d
    /\ doc_metadata d !! "content_hash"
       = Some (MStr (index._hash_content fixtures.world_two_defs "def f(): return 2")).
Proof.
  apply (index_file_last_chunk_wins fixtures.world_two_defs fixtures.fresh
           fixtures.c_py true fixtures.two_defs "c_py::f"
           (ingestor.definition_chunk (pystr.split_lines fixtures.two_defs)
              fixtures.second_def)).
  - reflexivity.
  - vm_compute. discriminate.
  - vm_compute. reflexivity.
Defined.
